(** * Tool facade of the reverse-engineering assistant

    A shallow embedding of
    [reverse_engineering_assistant/api_server_tools/function_tools.py]:
    the three tool classes [RevaDecompilationIndex],
    [RevaRenameFunctionVariable] and [RevaCrossReferenceTool], the messages
    they exchange with the analysis backend, and the queue through which
    requests are handed over.

    Python [str] values are Rocq strings whose characters are read as the
    code points U+0000..U+00FF; Python [int] values are [Z]. *)

From Stdlib Require Import ZArith List String Ascii Bool Lia.
Import ListNotations.

Open Scope string_scope.
Open Scope Z_scope.

(* ================================================================= *)
(** ** Python built-ins used by the tools *)

Module Py.

(** [RevaToolException] is the class of [reva_exceptions] that carries a
    tool-level error to the caller.  The three other exceptions the tool
    functions can raise are built-in. *)
Inductive exn : Type :=
| RevaToolException (msg : string)
| ValueError (msg : string)
| TypeError (msg : string)
| AssertionError (msg : string).

(** Whether a handler [except ValueError] catches the exception.
    [RevaToolException] derives from [ValueError], through the exception
    class of the output parsers it is declared from, so the handler
    catches it as it catches the [ValueError] of [int]. *)
Definition is_value_error (e : exn) : bool :=
  match e with
  | RevaToolException _ | ValueError _ => true
  | TypeError _ | AssertionError _ => false
  end.

(** An argument annotated [str | int] (or an [int] that the code also
    accepts as a [str]). *)
Inductive value : Type :=
| Int (z : Z)
| Str (s : string).

(** Truth value of an [Optional[str]]: [None] and the empty string are
    false. *)
Definition truthy (o : option string) : bool :=
  match o with
  | None => false
  | Some s => negb (s =? "")%string
  end.

(** *** [int(s, base)] on a string

    The grammar is that of CPython's [PyLong_FromString]: optional
    white space, an optional sign, for base 16 an optional [0x]/[0X]
    prefix that may be followed by one underscore, then digits separated
    by single underscores, then optional white space. *)

(** Value of a digit character ([_PyLong_DigitValue]); letters count from
    10 in either case. *)
Definition digit_value (c : ascii) : option Z :=
  let n := Z.of_N (N_of_ascii c) in
  if (48 <=? n) && (n <=? 57) then Some (n - 48)
  else if (97 <=? n) && (n <=? 122) then Some (n - 87)
  else if (65 <=? n) && (n <=? 90) then Some (n - 55)
  else None.

(** White space skipped by the parser ([Py_ISSPACE]): tab, line feed,
    vertical tab, form feed, carriage return and space. *)
Definition is_space (c : ascii) : bool :=
  let n := Z.of_N (N_of_ascii c) in
  ((9 <=? n) && (n <=? 13)) || (n =? 32).

(** Before parsing, a string that is not pure ASCII has its Unicode
    white space replaced by a space; below U+0100 these are U+0085 and
    U+00A0.  (Every other character from U+007F on is replaced by a
    question mark, which the grammar rejects exactly as it rejects the
    character itself, so it is left in place here.) *)
Definition ascii_space (c : ascii) : ascii :=
  let n := Z.of_N (N_of_ascii c) in
  if (n =? 133) || (n =? 160) then " "%char else c.

Fixpoint transform_space (s : string) : string :=
  match s with
  | EmptyString => EmptyString
  | String c r => String (ascii_space c) (transform_space r)
  end.

Fixpoint skip_spaces (s : string) : string :=
  match s with
  | String c r => if is_space c then skip_spaces r else s
  | EmptyString => EmptyString
  end.

(** The digit scan.  [acc] is the value read so far, [n] the number of
    digits read, [prev_us] tells whether the previous character was an
    underscore.  The scan stops at the first character that is neither a
    digit of the base nor an underscore and returns the rest; a doubled
    or trailing underscore is a syntax error. *)
Fixpoint scan_digits (base : Z) (s : string) (acc : Z) (n : nat)
         (prev_us : bool) : option (Z * nat * string) :=
  let stop := if prev_us then None else Some (acc, n, s) in
  match s with
  | EmptyString => stop
  | String c r =>
      if (c =? "_")%char then
        if prev_us then None else scan_digits base r acc n true
      else
        match digit_value c with
        | Some d =>
            if d <? base
            then scan_digits base r (acc * base + d) (S n) false
            else stop
        | None => stop
        end
  end.

Definition strip_sign (s : string) : Z * string :=
  match s with
  | String "+" r => (1, r)
  | String "-" r => (-1, r)
  | _ => (1, s)
  end.

Definition starts_with_underscore (s : string) : bool :=
  match s with
  | String c _ => (c =? "_")%char
  | EmptyString => false
  end.

(** The prefix of base 16; one underscore is allowed behind it. *)
Definition strip_prefix (base : Z) (s : string) : string :=
  if base =? 16 then
    match s with
    | String "0" (String "x" r) | String "0" (String "X" r) =>
        if starts_with_underscore r
        then match r with String _ r' => r' | EmptyString => r end
        else r
    | _ => s
    end
  else s.

(** [int(s, base)] for [base] 10 or 16; [None] stands for the
    [ValueError] the built-in raises on a malformed literal.  (The
    interpreter's configurable limit on the length of decimal literals is
    not modelled.) *)
Definition int_of_str (base : Z) (s : string) : option Z :=
  let '(sign, s1) := strip_sign (skip_spaces (transform_space s)) in
  let s2 := strip_prefix base s1 in
  if starts_with_underscore s2 then None
  else
    match scan_digits base s2 0 0%nat false with
    | Some (v, S _, rest) =>
        match skip_spaces rest with
        | EmptyString => Some (sign * v)
        | _ => None
        end
    | _ => None
    end.

(** *** [hex(n)] *)

Definition hex_digit (d : Z) : ascii :=
  if d <? 10 then ascii_of_N (Z.to_N (48 + d))
  else ascii_of_N (Z.to_N (87 + d)).

(** Hexadecimal digits of a non-negative [n], most significant first;
    [fuel] bounds the number of digits. *)
Fixpoint hex_digits (fuel : nat) (n : Z) (tail : string) : string :=
  match fuel with
  | O => String (hex_digit (n mod 16)) tail
  | S f =>
      if n <? 16 then String (hex_digit n) tail
      else hex_digits f (n / 16) (String (hex_digit (n mod 16)) tail)
  end.

Definition hex (n : Z) : string :=
  let m := Z.abs n in
  let body := "0x" ++ hex_digits (Z.to_nat (Z.log2 m)) m "" in
  if n <? 0 then "-" ++ body else body.

End Py.

(* ================================================================= *)
(** ** Messages of the tool protocol *)

(** Modelled from the spec: the variable record of [tool_protocol], of
    which the tools set the name only. *)
Record RevaVariable : Type := { name : string }.

(** Modelled from the spec: the request messages of [tool_protocol], one
    constructor per message class, with the fields the tools pass to the
    class. *)
Inductive RevaMessage : Type :=
| RevaGetDecompilation (address : option Z) (function : option string)
| RevaGetDefinedFunctionList (page : Z) (page_size : Z)
| RevaGetFunctionCount
| RevaRenameVariable (variable : RevaVariable) (new_name : string)
                     (function_name : string)
| RevaGetReferences (address_or_symbol : string).

(** Modelled from the spec: what a response carries besides the error
    description, one constructor per response class of [tool_protocol].
    [RevaOtherResponse] is an instance of [RevaMessageResponse] that
    belongs to none of the five classes. *)
Inductive ResponseBody : Type :=
| RevaGetDecompilationResponse (function function_signature : string)
    (address : Z) (decompilation : string) (variables : list RevaVariable)
| RevaGetDefinedFunctionListResponse (function_list : list string)
| RevaGetFunctionCountResponse (function_count : Z)
| RevaRenameVariableResponse
| RevaGetReferencesResponse (references_to references_from : list string)
| RevaOtherResponse.

(** Modelled from the spec: the common envelope of the responses. *)
Record RevaMessageResponse : Type :=
  { error_message : option string;
    body : ResponseBody }.

(** What [wait()] hands back: a response message, or some object that is
    not a [RevaMessageResponse] at all (the tools assert that it is
    one). *)
Inductive Delivered : Type :=
| Response (r : RevaMessageResponse)
| NotAResponse.

(** Modelled from the spec: [RevaCallbackHandler] of
    [assistant_api_server], the pending request; it owns the request
    message and the tool blocks on it. *)
Record RevaCallbackHandler : Type := { message : RevaMessage }.

(* ================================================================= *)
(** ** The bridge to the backend *)

(** Modelled from the spec: the shared queue [to_send_to_tool] of
    [assistant_api_server] and the transport behind it.
    [to_send_to_tool] lists every handler put on the queue, oldest first;
    [responses] lists what the coming calls of [wait()] return, in order.
    When [responses] is empty the backend never answers and [wait()]
    blocks for ever. *)
Record World : Type :=
  { to_send_to_tool : list RevaCallbackHandler;
    responses : list Delivered }.

Inductive Outcome (A : Type) : Type :=
| Return (a : A)
| Raise (e : Py.exn)
| Blocked.

Arguments Return {A} a.
Arguments Raise {A} e.
Arguments Blocked {A}.

(** A tool function: it runs in a world and leaves a world behind. *)
Definition Tool (A : Type) : Type := World -> Outcome A * World.

Definition ret {A : Type} (a : A) : Tool A := fun w => (Return a, w).

Definition raise {A : Type} (e : Py.exn) : Tool A := fun w => (Raise e, w).

Definition bind {A B : Type} (m : Tool A) (k : A -> Tool B) : Tool B :=
  fun w =>
    match m w with
    | (Return a, w') => k a w'
    | (Raise e, w') => (Raise e, w')
    | (Blocked, w') => (Blocked, w')
    end.

Declare Scope tool_scope.
Delimit Scope tool_scope with tool.
Notation "x <- m ;; k" := (bind m (fun x => k))
  (at level 61, m at next level, right associativity) : tool_scope.
Notation "m ;;; k" := (bind m (fun _ => k))
  (at level 61, right associativity) : tool_scope.
Open Scope tool_scope.

(** Modelled from the spec: [to_send_to_tool.put(callback_handler)]
    enqueues the handler and returns at once. *)
Definition put (h : RevaCallbackHandler) : Tool unit :=
  fun w =>
    (Return tt,
     {| to_send_to_tool := to_send_to_tool w ++ [h];
        responses := responses w |}).

(** Modelled from the spec: [callback_handler.wait()] blocks until the
    response for the handler is delivered and returns it; there is no
    timeout. *)
Definition wait : Tool Delivered :=
  fun w =>
    match responses w with
    | [] => (Blocked, w)
    | d :: rest =>
        (Return d,
         {| to_send_to_tool := to_send_to_tool w; responses := rest |})
    end.

(** [assert isinstance(response, RevaMessageResponse), "..."] *)
Definition assert_message_response (d : Delivered)
  : Tool RevaMessageResponse :=
  match d with
  | Response r => ret r
  | NotAResponse =>
      raise (Py.AssertionError
               "Incorrect type returned from callback handler.")
  end.

(** [if response.error_message: raise RevaToolException(...)] *)
Definition check_error (r : RevaMessageResponse) : Tool unit :=
  match error_message r with
  | Some text =>
      if Py.truthy (Some text) then raise (Py.RevaToolException text)
      else ret tt
  | None => ret tt
  end.

(** Submission of a request and the blocking wait for its answer, as each
    tool function writes them out. *)
Definition ask (m : RevaMessage) : Tool RevaMessageResponse :=
  put {| message := m |} ;;;
  response <- wait ;;
  assert_message_response response.

(* ================================================================= *)
(** ** The tool functions *)

(** Values of the mapping [get_decompilation_for_function] returns. *)
Inductive DictValue : Type :=
| VStr (s : string)
| VVariables (v : list RevaVariable).

(** Look-up in a mapping kept as its list of items. *)
Fixpoint dict_get {V : Type} (d : list (string * V)) (k : string)
  : option V :=
  match d with
  | [] => None
  | (k', v) :: rest => if (k' =? k)%string then Some v else dict_get rest k
  end.

(** The local variables [address] and [name] of
    [get_decompilation_for_function]. *)
Record Locals : Type :=
  { loc_address : option Z;
    loc_name : option string }.

(** The body of the [try] on a string, lines 49 to 51: the values of the
    locals when the body is left, and the exception that leaves it if one
    does.  (The text of the [ValueError] of [int] ends with the [repr] of
    the string; the handler drops it unread.) *)
Definition try_address (s : string) : Locals * option Py.exn :=
  match Py.int_of_str 16 s with
  | Some a =>
      ({| loc_address := Some a; loc_name := None |},
       if a <=? 0
       then Some (Py.RevaToolException
                    "Address must be > 0 and in hex format")
       else None)
  | None =>
      ({| loc_address := None; loc_name := None |},
       Some (Py.ValueError "invalid literal for int() with base 16"))
  end.

(** The [try]/[except ValueError] block that normalises the argument: the
    values of the locals when the block is left, and the exception that
    leaves it if one does.  The handler catches every [ValueError] the
    body raises, the [RevaToolException] of the guard on the address
    included, and sets [name] to the argument; [address] keeps the value
    the body gave it.  The [TypeError] of [int(x, 16)] on an [int] is not
    caught. *)
Definition normalise_argument (function_name_or_address : Py.value)
  : Locals * option Py.exn :=
  match function_name_or_address with
  | Py.Int _ =>
      ({| loc_address := None; loc_name := None |},
       Some (Py.TypeError
               "int() can't convert non-string with explicit base"))
  | Py.Str s =>
      let '(l, raised) := try_address s in
      match raised with
      | Some e =>
          if Py.is_value_error e
          then ({| loc_address := loc_address l; loc_name := Some s |}, None)
          else (l, Some e)
      | None => (l, None)
      end
  end.

(** [if address is None and name is None: raise ...] *)
Definition check_identifier (l : Locals) : option Py.exn :=
  match loc_address l, loc_name l with
  | None, None =>
      Some (Py.RevaToolException
              "function_name_or_address must be an address or function name")
  | _, _ => None
  end.

Definition raise_if (o : option Py.exn) : Tool unit :=
  match o with
  | Some e => raise e
  | None => ret tt
  end.

Section Tools.

(** The text of [repr(s)] and of [str(response)], which the tools only
    paste into messages. *)
Variable repr : string -> string.
Variable str_of_response : RevaMessageResponse -> string.

(** *** [RevaDecompilationIndex] *)

Definition get_decompilation_for_function
           (function_name_or_address : Py.value)
  : Tool (list (string * DictValue)) :=
  let '(locals, e) := normalise_argument function_name_or_address in
  raise_if e ;;;
  raise_if (check_identifier locals) ;;;
  response <- ask (RevaGetDecompilation (loc_address locals)
                                        (loc_name locals)) ;;
  check_error response ;;;
  match body response with
  | RevaGetDecompilationResponse f sig a dec vars =>
      ret [ ("function", VStr f);
            ("function_signature", VStr sig);
            ("address", VStr (Py.hex a));
            ("decompilation", VStr dec);
            ("variables", VVariables vars) ]
  | _ =>
      raise (Py.ValueError
               ("Expected a RevaGetDecompilationResponse, got "
                  ++ str_of_response response))
  end.

(** [if isinstance(x, str): x = int(x)] *)
Definition coerce_int (x : Py.value) : Tool Z :=
  match x with
  | Py.Int z => ret z
  | Py.Str s =>
      match Py.int_of_str 10 s with
      | Some z => ret z
      | None =>
          raise (Py.ValueError
                   ("invalid literal for int() with base 10: " ++ repr s))
      end
  end.

(** The default of [page_size], 20, is filled in by the caller. *)
Definition get_defined_function_list_paginated
           (page : Py.value) (page_size : Py.value) : Tool (list string) :=
  page <- coerce_int page ;;
  page_size <- coerce_int page_size ;;
  (if page =? 0
   then raise (Py.ValueError "`page` is 1 indexed, page cannot be 0")
   else ret tt) ;;;
  response <- ask (RevaGetDefinedFunctionList page page_size) ;;
  check_error response ;;;
  match body response with
  | RevaGetDefinedFunctionListResponse l => ret l
  | _ =>
      raise (Py.RevaToolException
               ("Expected a RevaGetDefinedFunctionListResponse, got "
                  ++ str_of_response response))
  end.

Definition get_defined_function_count : Tool Z :=
  response <- ask RevaGetFunctionCount ;;
  check_error response ;;;
  match body response with
  | RevaGetFunctionCountResponse n => ret n
  | _ =>
      raise (Py.ValueError
               ("Expected a RevaGetFunctionCountResponse, got "
                  ++ str_of_response response))
  end.

(** *** [RevaRenameFunctionVariable] *)

Definition rename_variable_in_function
           (new_name old_name containing_function : string)
  : Tool string :=
  response <- ask (RevaRenameVariable {| name := old_name |}
                                      new_name containing_function) ;;
  check_error response ;;;
  ret ("Renamed " ++ old_name ++ " to " ++ new_name
         ++ " in " ++ containing_function).

(** The [for] loop of [rename_multiple_variables_in_function] over the
    items that remain, [outputs] being the list built so far. *)
Fixpoint rename_loop (items : list (string * string))
         (containing_function : string) (outputs : list string)
  : Tool (list string) :=
  match items with
  | [] => ret outputs
  | (old_name, new_name) :: rest =>
      s <- rename_variable_in_function new_name old_name
                                       containing_function ;;
      rename_loop rest containing_function (outputs ++ [s])
  end.

(** [new_names] is the dictionary as the list of its items, in
    iteration order. *)
Definition rename_multiple_variables_in_function
           (new_names : list (string * string))
           (containing_function : string) : Tool (list string) :=
  rename_loop new_names containing_function [].

(** *** [RevaCrossReferenceTool] *)

Definition get_references (address_or_symbol : string)
  : Tool (list (string * list string)) :=
  response <- ask (RevaGetReferences address_or_symbol) ;;
  check_error response ;;;
  match body response with
  | RevaGetReferencesResponse refs_to refs_from =>
      ret [ ("references_to", refs_to);
            ("references_from", refs_from) ]
  | _ =>
      raise (Py.AssertionError
               ("Expected a RevaGetReferencesResponse, got "
                  ++ str_of_response response))
  end.

End Tools.

(* ================================================================= *)
(** ** Vocabulary of the statements *)

(** The world once the requests [ms] have been put on the queue, in that
    order, and their answers taken; [rest] are the answers still to come. *)
Definition submitted (w : World) (ms : list RevaMessage)
           (rest : list Delivered) : World :=
  {| to_send_to_tool :=
       to_send_to_tool w ++ map (fun m => {| message := m |}) ms;
     responses := rest |}.

(** A call fails locally when it raises and leaves the world as it found
    it: nothing was put on the queue and no answer was taken. *)
Definition fails_locally {A : Type} (t : Tool A) (w : World) : Prop :=
  exists e, t w = (Raise e, w).

(** The integer an [int]-or-[str] argument stands for, when it stands for
    one. *)
Definition as_int (x : Py.value) : option Z :=
  match x with
  | Py.Int z => Some z
  | Py.Str s => Py.int_of_str 10 s
  end.

(** A response that reports no error: its description is [None] or the
    empty string. *)
Definition no_error (r : RevaMessageResponse) : Prop :=
  Py.truthy (error_message r) = false.

(** The request and the confirmation string of one item [(old, new)] of a
    batch rename. *)
Definition rename_request (containing_function : string)
           (item : string * string) : RevaMessage :=
  RevaRenameVariable {| name := fst item |} (snd item) containing_function.

Definition confirmation (containing_function : string)
           (item : string * string) : string :=
  "Renamed " ++ fst item ++ " to " ++ snd item
    ++ " in " ++ containing_function.

Definition exn_message (e : Py.exn) : string :=
  match e with
  | Py.RevaToolException m | Py.ValueError m
  | Py.TypeError m | Py.AssertionError m => m
  end.

(** Whether the outcome of a batch rename hands the string [s] to the
    caller: as an element of the returned list, or within the text of the
    exception raised. *)
Definition reports (o : Outcome (list string)) (s : string) : bool :=
  match o with
  | Return l => existsb (String.eqb s) l
  | Raise e =>
      match index 0 s (exn_message e) with
      | Some _ => true
      | None => false
      end
  | Blocked => false
  end.

(** Whether a local holds a value other than [None]. *)
Definition populated {A : Type} (o : option A) : bool :=
  match o with
  | Some _ => true
  | None => false
  end.

(** The handler built for a request. *)
Definition handler_of (m : RevaMessage) : RevaCallbackHandler :=
  {| message := m |}.

(** A hexadecimal digit, in either case. *)
Definition is_hex_digit (c : ascii) : bool :=
  match Py.digit_value c with
  | Some d => d <? 16
  | None => false
  end.

Fixpoint all_hex_digits (s : string) : bool :=
  match s with
  | EmptyString => true
  | String c r => is_hex_digit c && all_hex_digits r
  end.

(** The number a string of hexadecimal digits writes, read behind the
    value [acc]. *)
Fixpoint hex_value (acc : Z) (s : string) : Z :=
  match s with
  | EmptyString => acc
  | String c r =>
      match Py.digit_value c with
      | Some d => hex_value (acc * 16 + d) r
      | None => acc
      end
  end.

(** The exception the guard on the address raises inside the [try]. *)
Definition address_refused : Py.exn :=
  Py.RevaToolException "Address must be > 0 and in hex format".

(** The exception of the [assert isinstance(...)] behind each wait. *)
Definition not_a_response : Py.exn :=
  Py.AssertionError "Incorrect type returned from callback handler.".

(** The result of a batch with the strings [outputs] put in front of
    the list it returns. *)
Definition with_outputs (outputs : list string)
           (res : Outcome (list string) * World)
  : Outcome (list string) * World :=
  match res with
  | (Return l, w) => (Return (outputs ++ l)%list, w)
  | other => other
  end.

(** *** Sample runs *)

Module Sample.

(** A world with an empty queue in which the answers [ds] are to come. *)
Definition world (ds : list Delivered) : World :=
  {| to_send_to_tool := []; responses := ds |}.

Definition ok (b : ResponseBody) : RevaMessageResponse :=
  {| error_message := None; body := b |}.

Definition failed (text : string) (b : ResponseBody) : RevaMessageResponse :=
  {| error_message := Some text; body := b |}.

(** Stand-ins for [repr] and [str] on messages. *)
Definition repr (s : string) : string := "'" ++ s ++ "'".

Definition str_of_response (r : RevaMessageResponse) : string :=
  match body r with
  | RevaGetDecompilationResponse _ _ _ _ _ => "RevaGetDecompilationResponse"
  | RevaGetDefinedFunctionListResponse _ =>
      "RevaGetDefinedFunctionListResponse"
  | RevaGetFunctionCountResponse _ => "RevaGetFunctionCountResponse"
  | RevaRenameVariableResponse => "RevaRenameVariableResponse"
  | RevaGetReferencesResponse _ _ => "RevaGetReferencesResponse"
  | RevaOtherResponse => "RevaMessageResponse"
  end.

End Sample.

(* ================================================================= *)
(** ** [hex] and [int(_, 16)] *)

Lemma hex_digit_cases (d : Z) :
  0 <= d < 16 ->
  d = 0 \/ d = 1 \/ d = 2 \/ d = 3 \/ d = 4 \/ d = 5 \/ d = 6 \/ d = 7 \/
  d = 8 \/ d = 9 \/ d = 10 \/ d = 11 \/ d = 12 \/ d = 13 \/ d = 14 \/ d = 15.
Proof. lia. Qed.

Ltac each_hex_digit d H :=
  let C := fresh "C" in
  pose proof (hex_digit_cases d H) as C;
  repeat (destruct C as [C | C]; [subst d | ]); [.. | subst d].

Lemma digit_value_hex_digit (d : Z) :
  0 <= d < 16 -> Py.digit_value (Py.hex_digit d) = Some d.
Proof. intros H. each_hex_digit d H; reflexivity. Qed.

Lemma hex_digit_plain (d : Z) :
  0 <= d < 16 ->
  Py.ascii_space (Py.hex_digit d) = Py.hex_digit d
  /\ Py.is_space (Py.hex_digit d) = false
  /\ (Py.hex_digit d =? "_")%char = false.
Proof. intros H. each_hex_digit d H; repeat split; reflexivity. Qed.

Lemma hex_digits_head (f : nat) :
  forall n tail, 0 <= n ->
    exists d r, 0 <= d < 16 /\
                Py.hex_digits f n tail = String (Py.hex_digit d) r.
Proof.
  induction f as [| f IH]; intros n tail Hn; simpl.
  - exists (n mod 16), tail. split; [apply Z.mod_pos_bound; lia | reflexivity].
  - destruct (n <? 16) eqn:E.
    + apply Z.ltb_lt in E. exists n, tail. split; [lia | reflexivity].
    + apply IH. apply Z.div_pos; lia.
Qed.

Lemma transform_space_hex_digits (f : nat) :
  forall n tail, 0 <= n ->
    Py.transform_space (Py.hex_digits f n tail)
    = Py.hex_digits f n (Py.transform_space tail).
Proof.
  induction f as [| f IH]; intros n tail Hn; simpl.
  - f_equal. apply hex_digit_plain. apply Z.mod_pos_bound; lia.
  - destruct (n <? 16) eqn:E.
    + apply Z.ltb_lt in E. simpl. f_equal. apply hex_digit_plain. lia.
    + rewrite IH by (apply Z.div_pos; lia). simpl. do 2 f_equal.
      apply hex_digit_plain. apply Z.mod_pos_bound; lia.
Qed.

Lemma scan_hex_digit (d : Z) (r : string) (acc : Z) (k : nat) (us : bool) :
  0 <= d < 16 ->
  Py.scan_digits 16 (String (Py.hex_digit d) r) acc k us
  = Py.scan_digits 16 r (acc * 16 + d) (S k) false.
Proof.
  intros H. simpl.
  destruct (hex_digit_plain d H) as (_ & _ & ->).
  rewrite (digit_value_hex_digit d H).
  destruct (d <? 16) eqn:E; [reflexivity | apply Z.ltb_ge in E; lia].
Qed.

(** Scanning the digits [hex_digits] writes for [n] reads [n] back. *)
Lemma scan_hex_digits (f : nat) :
  forall n tail k,
    0 <= n < 16 ^ (Z.of_nat f + 1) ->
    exists k',
      Py.scan_digits 16 (Py.hex_digits f n tail) 0 k false
      = Py.scan_digits 16 tail n (S k') false.
Proof.
  induction f as [| f IH]; intros n tail k Hn.
  - change (16 ^ (Z.of_nat 0 + 1)) with 16 in Hn. cbn [Py.hex_digits].
    exists k. rewrite Z.mod_small by lia. now rewrite scan_hex_digit by lia.
  - cbn [Py.hex_digits]. destruct (n <? 16) eqn:E.
    + apply Z.ltb_lt in E. exists k. now rewrite scan_hex_digit by lia.
    + apply Z.ltb_ge in E.
      assert (Hq : 0 <= n / 16 < 16 ^ (Z.of_nat f + 1)).
      { split; [apply Z.div_pos; lia |].
        apply Z.div_lt_upper_bound; [lia |].
        replace (Z.of_nat (S f) + 1) with (Z.succ (Z.of_nat f + 1)) in Hn
          by lia.
        rewrite Z.pow_succ_r in Hn by lia. lia. }
      destruct (IH (n / 16) (String (Py.hex_digit (n mod 16)) tail) k Hq)
        as [k' ->].
      exists (S k').
      rewrite scan_hex_digit by (apply Z.mod_pos_bound; lia).
      f_equal. pose proof (Z.div_mod n 16). lia.
Qed.

Lemma hex_fuel (m : Z) :
  0 <= m -> 0 <= m < 16 ^ (Z.of_nat (Z.to_nat (Z.log2 m)) + 1).
Proof.
  intros Hm. split; [assumption |].
  pose proof (Z.log2_nonneg m) as Hl.
  rewrite Z2Nat.id by assumption.
  destruct (Z.eq_dec m 0) as [-> | Hz]; [reflexivity |].
  destruct (Z.log2_spec m ltac:(lia)) as [_ Hlt].
  eapply Z.lt_le_trans; [exact Hlt |].
  change 16 with (2 ^ 4). rewrite <- Z.pow_mul_r by lia.
  apply Z.pow_le_mono_r; lia.
Qed.

(** The digits of a non-negative number behind the prefix [0x] parse back
    to the number, under either sign. *)
Lemma int_of_hex_body (m sign : Z) (minus : bool) :
  0 <= m ->
  sign = (if minus then -1 else 1) ->
  Py.int_of_str 16
    ((if minus then "-" else "")
       ++ "0x" ++ Py.hex_digits (Z.to_nat (Z.log2 m)) m "")
  = Some (sign * m).
Proof.
  intros Hm ->.
  set (f := Z.to_nat (Z.log2 m)).
  destruct (hex_digits_head f m "" Hm) as (d & r & Hd & Hhead).
  destruct (scan_hex_digits f m "" 0%nat (hex_fuel m Hm)) as [k' Hscan].
  fold f in Hscan.
  assert (Htr : Py.transform_space (Py.hex_digits f m "")
                = Py.hex_digits f m "")
    by (now rewrite transform_space_hex_digits).
  destruct (hex_digit_plain d Hd) as (_ & _ & Hus).
  assert (Hpre : Py.strip_prefix 16 ("0x" ++ Py.hex_digits f m "")
                 = Py.hex_digits f m "").
  { rewrite Hhead. cbn. now rewrite Hus. }
  assert (Hstart : Py.starts_with_underscore (Py.hex_digits f m "") = false)
    by (now rewrite Hhead).
  unfold Py.int_of_str.
  destruct minus.
  - change (Py.transform_space ("-" ++ "0x" ++ Py.hex_digits f m ""))
      with ("-0x" ++ Py.transform_space (Py.hex_digits f m "")).
    rewrite Htr.
    change (Py.strip_sign (Py.skip_spaces ("-0x" ++ Py.hex_digits f m "")))
      with (-1, "0x" ++ Py.hex_digits f m "").
    cbv zeta iota. rewrite Hpre, Hstart, Hscan. reflexivity.
  - change (Py.transform_space ("" ++ "0x" ++ Py.hex_digits f m ""))
      with ("0x" ++ Py.transform_space (Py.hex_digits f m "")).
    rewrite Htr.
    change (Py.strip_sign (Py.skip_spaces ("0x" ++ Py.hex_digits f m "")))
      with (1, "0x" ++ Py.hex_digits f m "").
    cbv zeta iota. rewrite Hpre, Hstart, Hscan. reflexivity.
Qed.

(** [int(hex(a), 16) == a] for every integer [a]. *)
Lemma int_of_hex (a : Z) : Py.int_of_str 16 (Py.hex a) = Some a.
Proof.
  unfold Py.hex. destruct (a <? 0) eqn:E.
  - apply Z.ltb_lt in E.
    etransitivity;
      [apply (int_of_hex_body (Z.abs a) (-1) true); [lia | reflexivity]
      | f_equal; lia].
  - apply Z.ltb_ge in E.
    etransitivity;
      [apply (int_of_hex_body (Z.abs a) 1 false); [lia | reflexivity]
      | f_equal; lia].
Qed.

(* ================================================================= *)
(** ** The bridge *)

(** Runs the pure steps of a tool function, leaving [ask] and
    [check_error] folded for rewriting. *)
Ltac tool_steps :=
  repeat (unfold bind, raise_if, raise, ret; cbv beta iota zeta).

Lemma ask_answered (m : RevaMessage) (w : World) (r : RevaMessageResponse)
      (rest : list Delivered) :
  responses w = Response r :: rest ->
  ask m w = (Return r, submitted w [m] rest).
Proof. intros H. unfold ask, bind, put, wait. cbn. now rewrite H. Qed.

Lemma ask_queues (m : RevaMessage) (w : World) :
  to_send_to_tool (snd (ask m w))
  = (to_send_to_tool w ++ [{| message := m |}])%list.
Proof.
  unfold ask, bind, put, wait. cbn.
  destruct (responses w) as [| [r |] rest]; reflexivity.
Qed.

Lemma check_error_raises (r : RevaMessageResponse) (text : string)
      (w : World) :
  error_message r = Some text -> text <> "" ->
  check_error r w = (Raise (Py.RevaToolException text), w).
Proof.
  intros H Hne. unfold check_error. rewrite H. cbn.
  destruct (String.eqb_spec text ""); [contradiction | reflexivity].
Qed.

Lemma check_error_passes (r : RevaMessageResponse) (w : World) :
  no_error r -> check_error r w = (Return tt, w).
Proof.
  unfold no_error, check_error. destruct (error_message r) as [text |].
  - intros ->. reflexivity.
  - reflexivity.
Qed.

Lemma coerce_int_as_int (repr : string -> string) (x : Py.value)
      (w : World) :
  coerce_int repr x w =
  match as_int x with
  | Some z => (Return z, w)
  | None =>
      (Raise (Py.ValueError
                ("invalid literal for int() with base 10: "
                   ++ repr match x with Py.Str s => s | Py.Int _ => "" end)),
       w)
  end.
Proof.
  destruct x as [z | s]; cbn; [reflexivity |].
  destruct (Py.int_of_str 10 s); reflexivity.
Qed.

(** The normalisation of a string raises nothing: a string that
    [int(_, 16)] reads is the address, and the name as well when the
    number is not positive; a string that [int(_, 16)] rejects is the
    name. *)
Lemma normalise_string (s : string) :
  normalise_argument (Py.Str s)
  = (match Py.int_of_str 16 s with
     | Some a =>
         {| loc_address := Some a;
            loc_name := if a <=? 0 then Some s else None |}
     | None => {| loc_address := None; loc_name := Some s |}
     end, None).
Proof.
  unfold normalise_argument, try_address.
  destruct (Py.int_of_str 16 s) as [a |]; [| reflexivity].
  destruct (a <=? 0); reflexivity.
Qed.

(** When the normalisation block raises nothing, the check behind it
    raises nothing either. *)
Lemma normalised_is_identified (x : Py.value) (l : Locals) :
  normalise_argument x = (l, None) -> check_identifier l = None.
Proof.
  destruct x as [z | s]; [discriminate |].
  rewrite normalise_string. intros H. injection H as <-.
  destruct (Py.int_of_str 16 s) as [a |];
    [destruct (a <=? 0) |]; reflexivity.
Qed.

(* ================================================================= *)
(** ** Errors reported by the backend *)

(** C1.  In each of the five tool operations, once the request is
    submitted and the response delivered carries a non-empty error
    description, the operation raises [RevaToolException] with exactly that
    text, whatever the kind and the payload of the response. *)
Theorem backend_error_is_raised_first
        (repr : string -> string)
        (str_of_response : RevaMessageResponse -> string)
        (w : World) (r : RevaMessageResponse) (rest : list Delivered)
        (text : string) :
  responses w = Response r :: rest ->
  error_message r = Some text ->
  text <> "" ->
  (forall x l,
      normalise_argument x = (l, None) ->
      get_decompilation_for_function str_of_response x w
      = (Raise (Py.RevaToolException text),
         submitted w [RevaGetDecompilation (loc_address l) (loc_name l)]
                   rest))
  /\ (forall p ps page page_size,
         as_int p = Some page -> as_int ps = Some page_size -> page <> 0 ->
         get_defined_function_list_paginated repr str_of_response p ps w
         = (Raise (Py.RevaToolException text),
            submitted w [RevaGetDefinedFunctionList page page_size] rest))
  /\ get_defined_function_count str_of_response w
     = (Raise (Py.RevaToolException text),
        submitted w [RevaGetFunctionCount] rest)
  /\ (forall new_name old_name containing_function,
         rename_variable_in_function new_name old_name containing_function w
         = (Raise (Py.RevaToolException text),
            submitted w [RevaRenameVariable {| name := old_name |} new_name
                                            containing_function] rest))
  /\ (forall address_or_symbol,
         get_references str_of_response address_or_symbol w
         = (Raise (Py.RevaToolException text),
            submitted w [RevaGetReferences address_or_symbol] rest)).
Proof.
  intros Hw He Hne.
  assert (Hask : forall m, ask m w = (Return r, submitted w [m] rest))
    by (intros m; now apply ask_answered).
  assert (Herr : forall w', check_error r w'
                            = (Raise (Py.RevaToolException text), w'))
    by (intros w'; now apply check_error_raises).
  repeat split.
  - intros x l Hx. unfold get_decompilation_for_function.
    rewrite Hx, (normalised_is_identified x l Hx).
    tool_steps. rewrite Hask. tool_steps. now rewrite Herr.
  - intros p ps page page_size Hp Hps Hz.
    unfold get_defined_function_list_paginated. tool_steps.
    rewrite coerce_int_as_int, Hp. tool_steps.
    rewrite coerce_int_as_int, Hps. tool_steps.
    destruct (Z.eqb_spec page 0); [contradiction |].
    tool_steps. rewrite Hask. tool_steps. now rewrite Herr.
  - unfold get_defined_function_count, bind. now rewrite Hask, Herr.
  - intros. unfold rename_variable_in_function, bind. now rewrite Hask, Herr.
  - intros. unfold get_references, bind. now rewrite Hask, Herr.
Qed.

Lemma backend_error_is_raised_first_witness :
  let w := Sample.world
             [Response (Sample.failed "function not found"
                                      (RevaGetDefinedFunctionListResponse
                                         ["main"]))] in
  get_decompilation_for_function Sample.str_of_response (Py.Str "main") w
  = (Raise (Py.RevaToolException "function not found"),
     submitted w [RevaGetDecompilation None (Some "main")] [])
  /\ get_defined_function_count Sample.str_of_response w
     = (Raise (Py.RevaToolException "function not found"),
        submitted w [RevaGetFunctionCount] []).
Proof.
  intros w.
  destruct (backend_error_is_raised_first
              Sample.repr Sample.str_of_response w
              (Sample.failed "function not found"
                             (RevaGetDefinedFunctionListResponse ["main"]))
              [] "function not found")
    as (Hdec & _ & Hcount & _).
  - reflexivity.
  - reflexivity.
  - discriminate.
  - split; [| exact Hcount].
    apply (Hdec (Py.Str "main")
                {| loc_address := None; loc_name := Some "main" |}).
    reflexivity.
Defined.

(* ================================================================= *)
(** ** Responses of the wrong kind *)

(** Three operations meet a response of another kind that reports no
    error with an exception that is not a [RevaToolException]. *)
Lemma kind_mismatch_elsewhere
      (str_of_response : RevaMessageResponse -> string)
      (w : World) (r : RevaMessageResponse) (rest : list Delivered) :
  responses w = Response r :: rest ->
  no_error r ->
  body r = RevaOtherResponse ->
  fst (get_decompilation_for_function str_of_response (Py.Str "main") w)
  = Raise (Py.ValueError ("Expected a RevaGetDecompilationResponse, got "
                            ++ str_of_response r))
  /\ fst (get_defined_function_count str_of_response w)
     = Raise (Py.ValueError ("Expected a RevaGetFunctionCountResponse, got "
                               ++ str_of_response r))
  /\ fst (get_references str_of_response "main" w)
     = Raise (Py.AssertionError
                ("Expected a RevaGetReferencesResponse, got "
                   ++ str_of_response r)).
Proof.
  intros Hw He Hb.
  assert (Hask : forall m, ask m w = (Return r, submitted w [m] rest))
    by (intros m; now apply ask_answered).
  repeat split.
  - unfold get_decompilation_for_function.
    change (normalise_argument (Py.Str "main"))
      with ({| loc_address := None; loc_name := Some "main" |},
            @None Py.exn).
    tool_steps. cbn [check_identifier loc_address loc_name]. tool_steps.
    rewrite Hask. tool_steps.
    rewrite check_error_passes by assumption. tool_steps.
    now rewrite Hb.
  - unfold get_defined_function_count. tool_steps. rewrite Hask. tool_steps.
    rewrite check_error_passes by assumption. tool_steps. now rewrite Hb.
  - unfold get_references. tool_steps. rewrite Hask. tool_steps.
    rewrite check_error_passes by assumption. tool_steps. now rewrite Hb.
Qed.

(** C4.  The code at a response of the wrong kind that reports no error:
    [get_defined_function_list_paginated] raises [RevaToolException], the
    exception of the backend's errors, and [rename_variable_in_function]
    returns its confirmation as if the rename had been acknowledged. *)
Theorem kind_mismatch_not_distinguished
        (repr : string -> string)
        (str_of_response : RevaMessageResponse -> string) :
  let r := Sample.ok (RevaGetFunctionCountResponse 3) in
  let w := Sample.world [Response r] in
  fst (get_defined_function_list_paginated repr str_of_response
                                           (Py.Int 1) (Py.Int 20) w)
  = Raise (Py.RevaToolException
             ("Expected a RevaGetDefinedFunctionListResponse, got "
                ++ str_of_response r))
  /\ fst (rename_variable_in_function "b" "a" "F" w)
     = Return "Renamed a to b in F".
Proof. split; reflexivity. Qed.

(* ================================================================= *)
(** ** Arguments of the paginated list *)

(** C5.  A page that is the integer 0, or a string that [int] reads as 0,
    makes [get_defined_function_list_paginated] raise a [ValueError] with
    the world untouched, whatever the page size; when the page size is an
    integer or a numeric string the error is the one about page 0. *)
Theorem page_zero_fails_locally
        (repr : string -> string)
        (str_of_response : RevaMessageResponse -> string)
        (page page_size : Py.value) (w : World) :
  as_int page = Some 0 ->
  exists msg,
    get_defined_function_list_paginated repr str_of_response
                                        page page_size w
    = (Raise (Py.ValueError msg), w)
    /\ (as_int page_size <> None ->
        msg = "`page` is 1 indexed, page cannot be 0").
Proof.
  intros Hp. unfold get_defined_function_list_paginated. tool_steps.
  rewrite coerce_int_as_int, Hp. tool_steps.
  rewrite coerce_int_as_int. destruct (as_int page_size) as [n |].
  - tool_steps. cbn. eexists. split; [reflexivity | reflexivity].
  - eexists. split; [reflexivity | intros H; now contradiction H].
Qed.

Lemma page_zero_fails_locally_witness :
  let w := Sample.world
             [Response (Sample.ok (RevaGetDefinedFunctionListResponse
                                     ["main"]))] in
  exists msg,
    get_defined_function_list_paginated
      Sample.repr Sample.str_of_response (Py.Str " 0 ") (Py.Int (-5)) w
    = (Raise (Py.ValueError msg), w)
    /\ (as_int (Py.Int (-5)) <> None ->
        msg = "`page` is 1 indexed, page cannot be 0").
Proof.
  intros w.
  apply (page_zero_fails_locally Sample.repr Sample.str_of_response
                                 (Py.Str " 0 ") (Py.Int (-5)) w).
  reflexivity.
Defined.

(** C6, as stated, fails: a negative page and a page size of 0 are not
    refused; the request is put on the queue and the backend's answer is
    returned. *)
Lemma negative_page_is_submitted :
  let w := Sample.world
             [Response (Sample.ok (RevaGetDefinedFunctionListResponse
                                     ["main"]))] in
  get_defined_function_list_paginated
    Sample.repr Sample.str_of_response (Py.Int (-1)) (Py.Int 0) w
  = (Return ["main"], submitted w [RevaGetDefinedFunctionList (-1) 0] [])
  /\ ~ fails_locally
       (get_defined_function_list_paginated
          Sample.repr Sample.str_of_response (Py.Int (-1)) (Py.Int 20)) w
  /\ ~ fails_locally
       (get_defined_function_list_paginated
          Sample.repr Sample.str_of_response (Py.Int 1) (Py.Int 0)) w.
Proof.
  intros w. split; [reflexivity |].
  split; intros [e H]; cbv in H; discriminate H.
Qed.

(** C6, amended.  The only argument refused locally is page 0.  Every
    other integer page, with any integer page size, is put on the queue
    as it was given. *)
Theorem only_page_zero_is_refused
        (repr : string -> string)
        (str_of_response : RevaMessageResponse -> string)
        (page page_size : Z) (w : World) :
  let run := get_defined_function_list_paginated
               repr str_of_response (Py.Int page) (Py.Int page_size) w in
  if page =? 0
  then run = (Raise (Py.ValueError "`page` is 1 indexed, page cannot be 0"),
              w)
  else to_send_to_tool (snd run)
       = (to_send_to_tool w
            ++ [{| message := RevaGetDefinedFunctionList page page_size |}]
         )%list.
Proof.
  cbv zeta. unfold get_defined_function_list_paginated. tool_steps.
  cbn [coerce_int]. tool_steps.
  destruct (page =? 0); [reflexivity |].
  tool_steps.
  pose proof (ask_queues (RevaGetDefinedFunctionList page page_size) w) as Hq.
  destruct (ask (RevaGetDefinedFunctionList page page_size) w)
    as [[r | e |] w']; cbn [snd] in *; try assumption.
  unfold check_error. destruct (error_message r) as [text |].
  - destruct (Py.truthy (Some text)); tool_steps;
      [assumption | destruct (body r); assumption].
  - tool_steps. destruct (body r); assumption.
Qed.

(* ================================================================= *)
(** ** Empty strings *)

(** C7, as stated, fails: with every required string empty,
    [rename_variable_in_function] and [get_references] put their request
    on the queue and return the backend's answer. *)
Lemma empty_strings_are_submitted :
  let w1 := Sample.world [Response (Sample.ok RevaRenameVariableResponse)] in
  let w2 := Sample.world
              [Response (Sample.ok (RevaGetReferencesResponse [] []))] in
  rename_variable_in_function "" "" "" w1
  = (Return "Renamed  to  in ",
     submitted w1 [RevaRenameVariable {| name := "" |} "" ""] [])
  /\ ~ fails_locally (rename_variable_in_function "" "" "") w1
  /\ get_references Sample.str_of_response "" w2
     = (Return [("references_to", []); ("references_from", [])],
        submitted w2 [RevaGetReferences ""] [])
  /\ ~ fails_locally (get_references Sample.str_of_response "") w2.
Proof.
  intros w1 w2. repeat split; try reflexivity.
  all: intros [e H]; cbv in H; discriminate H.
Qed.

(** Whatever its outcome, a tool function that starts by asking has put
    its request on the queue. *)
Lemma asked_then_queued {A : Type} (m : RevaMessage)
      (k : RevaMessageResponse -> Tool A) (w : World) :
  (forall r w', to_send_to_tool (snd (k r w')) = to_send_to_tool w') ->
  to_send_to_tool (snd (bind (ask m) k w))
  = (to_send_to_tool w ++ [{| message := m |}])%list.
Proof.
  intros Hk. unfold bind. pose proof (ask_queues m w) as Hq.
  destruct (ask m w) as [[r | e |] w']; cbn [snd] in *;
    [now rewrite Hk | assumption | assumption].
Qed.

Lemma check_error_keeps_world (r : RevaMessageResponse) (w : World) :
  snd (check_error r w) = w.
Proof.
  unfold check_error. destruct (error_message r) as [text |];
    [destruct (Py.truthy (Some text)) |]; reflexivity.
Qed.

(** C7, amended.  The two functions check no string for emptiness: for
    every old name, new name, containing function and address-or-symbol
    string, the empty one included, the request built from the strings as
    given is put on the queue. *)
Theorem strings_are_submitted_unchecked
        (str_of_response : RevaMessageResponse -> string)
        (new_name old_name containing_function address_or_symbol : string)
        (w : World) :
  to_send_to_tool
    (snd (rename_variable_in_function new_name old_name
                                      containing_function w))
  = (to_send_to_tool w
       ++ [{| message := RevaRenameVariable {| name := old_name |} new_name
                                            containing_function |}])%list
  /\ to_send_to_tool
       (snd (get_references str_of_response address_or_symbol w))
     = (to_send_to_tool w
          ++ [{| message := RevaGetReferences address_or_symbol |}])%list.
Proof.
  split.
  - unfold rename_variable_in_function. apply asked_then_queued.
    intros r w'. unfold bind.
    pose proof (check_error_keeps_world r w') as Hc.
    destruct (check_error r w') as [[[] | e |] w'']; cbn [snd] in *;
      now subst w''.
  - unfold get_references. apply asked_then_queued.
    intros r w'. unfold bind.
    pose proof (check_error_keeps_world r w') as Hc.
    destruct (check_error r w') as [[[] | e |] w'']; cbn [snd] in *;
      subst w''; [destruct (body r) |..]; reflexivity.
Qed.

(* ================================================================= *)
(** ** Cross references *)

(** C9.  A response of the references kind that reports no error and
    carries two empty lists makes [get_references] return the mapping of
    the two keys to the empty list. *)
Theorem no_references_is_a_result
        (str_of_response : RevaMessageResponse -> string)
        (address_or_symbol : string) (w : World)
        (r : RevaMessageResponse) (rest : list Delivered) :
  responses w = Response r :: rest ->
  no_error r ->
  body r = RevaGetReferencesResponse [] [] ->
  get_references str_of_response address_or_symbol w
  = (Return [("references_to", []); ("references_from", [])],
     submitted w [RevaGetReferences address_or_symbol] rest).
Proof.
  intros Hw He Hb. unfold get_references. tool_steps.
  rewrite (ask_answered _ w r rest Hw). tool_steps.
  rewrite check_error_passes by assumption. tool_steps.
  now rewrite Hb.
Qed.

Lemma no_references_is_a_result_witness :
  let w := Sample.world
             [Response {| error_message := Some "";
                          body := RevaGetReferencesResponse [] [] |}] in
  get_references Sample.str_of_response "memcpy" w
  = (Return [("references_to", []); ("references_from", [])],
     submitted w [RevaGetReferences "memcpy"] []).
Proof.
  intros w.
  apply (no_references_is_a_result
           Sample.str_of_response "memcpy" w
           {| error_message := Some "";
              body := RevaGetReferencesResponse [] [] |} []);
    reflexivity.
Defined.

(* ================================================================= *)
(** ** Renaming *)

Lemma rename_acknowledged (new_name old_name containing_function : string)
      (w : World) (r : RevaMessageResponse) (rest : list Delivered) :
  responses w = Response r :: rest ->
  no_error r ->
  rename_variable_in_function new_name old_name containing_function w
  = (Return (confirmation containing_function (old_name, new_name)),
     submitted w [rename_request containing_function (old_name, new_name)]
               rest).
Proof.
  intros Hw He. unfold rename_variable_in_function. tool_steps.
  rewrite (ask_answered _ w r rest Hw). tool_steps.
  now rewrite check_error_passes by assumption.
Qed.

Lemma rename_refused (new_name old_name containing_function : string)
      (w : World) (r : RevaMessageResponse) (rest : list Delivered)
      (text : string) :
  responses w = Response r :: rest ->
  error_message r = Some text -> text <> "" ->
  rename_variable_in_function new_name old_name containing_function w
  = (Raise (Py.RevaToolException text),
     submitted w [rename_request containing_function (old_name, new_name)]
               rest).
Proof.
  intros Hw He Hne. unfold rename_variable_in_function. tool_steps.
  rewrite (ask_answered _ w r rest Hw). tool_steps.
  now rewrite (check_error_raises r text) by assumption.
Qed.

Lemma submitted_twice (w : World) (m : RevaMessage) (ms : list RevaMessage)
      (mid rest : list Delivered) :
  submitted (submitted w [m] mid) ms rest = submitted w (m :: ms) rest.
Proof. unfold submitted. cbn. now rewrite <- app_assoc. Qed.

(** The loop over items that are all acknowledged. *)
Lemma rename_loop_acknowledged (containing_function : string)
      (items : list (string * string)) :
  forall (outputs : list string) (w : World)
         (rs : list RevaMessageResponse) (rest : list Delivered),
    responses w = (map Response rs ++ rest)%list ->
    List.length rs = List.length items ->
    Forall no_error rs ->
    rename_loop items containing_function outputs w
    = (Return (outputs ++ map (confirmation containing_function) items)%list,
       submitted w (map (rename_request containing_function) items) rest).
Proof.
  induction items as [| [old_name new_name] items IH];
    intros outputs w rs rest Hw Hlen Hok.
  - destruct rs; [| discriminate]. cbn in *.
    unfold ret, submitted. rewrite !app_nil_r, <- Hw. now destruct w.
  - destruct rs as [| r rs]; [discriminate |].
    inversion Hok as [| ? ? Hr Hrs]; subst.
    cbn [rename_loop]. tool_steps.
    rewrite (rename_acknowledged _ _ _ w r (map Response rs ++ rest) Hw Hr).
    tool_steps.
    rewrite (IH _ _ rs rest); [| reflexivity | now injection Hlen | assumption].
    rewrite submitted_twice, <- app_assoc. reflexivity.
Qed.

(** The loop when the item behind [before] is refused. *)
Lemma rename_loop_refused (containing_function : string)
      (before : list (string * string)) :
  forall (item : string * string) (after : list (string * string))
         (outputs : list string) (w : World)
         (rs : list RevaMessageResponse) (r : RevaMessageResponse)
         (text : string) (rest : list Delivered),
    responses w = (map Response rs ++ Response r :: rest)%list ->
    List.length rs = List.length before ->
    Forall no_error rs ->
    error_message r = Some text -> text <> "" ->
    rename_loop (before ++ item :: after) containing_function outputs w
    = (Raise (Py.RevaToolException text),
       submitted w (map (rename_request containing_function)
                        (before ++ [item])) rest).
Proof.
  induction before as [| [old_name new_name] before IH];
    intros item after outputs w rs r text rest Hw Hlen Hok He Hne.
  - destruct rs; [| discriminate]. destruct item as [old_name new_name].
    cbn [app rename_loop map]. tool_steps.
    now rewrite (rename_refused _ _ _ w r rest text Hw He Hne).
  - destruct rs as [| r0 rs]; [discriminate |].
    inversion Hok as [| ? ? Hr Hrs]; subst.
    cbn [app rename_loop]. tool_steps.
    rewrite (rename_acknowledged _ _ _ w r0
               (map Response rs ++ Response r :: rest) Hw Hr).
    tool_steps.
    rewrite (IH item after _ _ rs r text rest);
      [| reflexivity | now injection Hlen | assumption..].
    now rewrite submitted_twice.
Qed.

(** C3.  When every rename of the batch is acknowledged,
    [rename_multiple_variables_in_function] returns one confirmation per
    item of the mapping, in the order of the items, the one of [(a, b)]
    being "Renamed a to b in F"; the requests went out in the same
    order. *)
Theorem batch_rename_confirms_each_item
        (new_names : list (string * string)) (containing_function : string)
        (w : World) (rs : list RevaMessageResponse)
        (rest : list Delivered) :
  responses w = (map Response rs ++ rest)%list ->
  List.length rs = List.length new_names ->
  Forall no_error rs ->
  rename_multiple_variables_in_function new_names containing_function w
  = (Return (map (fun item =>
                    "Renamed " ++ fst item ++ " to " ++ snd item
                      ++ " in " ++ containing_function) new_names),
     submitted w (map (rename_request containing_function) new_names) rest).
Proof.
  intros Hw Hlen Hok. unfold rename_multiple_variables_in_function.
  now rewrite (rename_loop_acknowledged _ _ [] w rs rest Hw Hlen Hok).
Qed.

Lemma batch_rename_confirms_each_item_witness :
  let w := Sample.world [Response (Sample.ok RevaRenameVariableResponse);
                         Response (Sample.ok RevaRenameVariableResponse)] in
  rename_multiple_variables_in_function [("a", "b"); ("c", "d")] "F" w
  = (Return ["Renamed a to b in F"; "Renamed c to d in F"],
     submitted w [RevaRenameVariable {| name := "a" |} "b" "F";
                  RevaRenameVariable {| name := "c" |} "d" "F"] []).
Proof.
  intros w.
  apply (batch_rename_confirms_each_item
           [("a", "b"); ("c", "d")] "F" w
           [Sample.ok RevaRenameVariableResponse;
            Sample.ok RevaRenameVariableResponse] []).
  - reflexivity.
  - reflexivity.
  - repeat constructor.
Defined.

(** C2, as stated, fails: when the second of two renames is refused the
    outcome is the exception alone; the confirmation of the first rename
    is neither returned nor part of the exception's text. *)
Lemma batch_rename_loses_confirmations :
  let w := Sample.world
             [Response (Sample.ok RevaRenameVariableResponse);
              Response (Sample.failed "variable not found"
                                      RevaRenameVariableResponse)] in
  let outcome :=
    fst (rename_multiple_variables_in_function
           [("a", "b"); ("c", "d")] "F" w) in
  outcome = Raise (Py.RevaToolException "variable not found")
  /\ reports outcome "Renamed a to b in F" = false
  /\ ~ (exists results, outcome = Return results).
Proof.
  intros w outcome.
  split; [reflexivity | split; [reflexivity |]].
  intros [results H]. discriminate H.
Qed.

(** C2, amended.  When the rename of one item is refused and those of all
    items before it were acknowledged,
    [rename_multiple_variables_in_function] raises [RevaToolException]
    with the text of the refusal and nothing else; the requests put on the
    queue are those of the items up to the refused one, and the answers
    behind the refusal are left untaken. *)
Theorem batch_rename_aborts_at_first_refusal
        (before after : list (string * string)) (item : string * string)
        (containing_function : string) (w : World)
        (rs : list RevaMessageResponse) (r : RevaMessageResponse)
        (text : string) (rest : list Delivered) :
  responses w = (map Response rs ++ Response r :: rest)%list ->
  List.length rs = List.length before ->
  Forall no_error rs ->
  error_message r = Some text ->
  text <> "" ->
  rename_multiple_variables_in_function
    (before ++ item :: after) containing_function w
  = (Raise (Py.RevaToolException text),
     submitted w (map (rename_request containing_function)
                      (before ++ [item])) rest).
Proof.
  intros Hw Hlen Hok He Hne. unfold rename_multiple_variables_in_function.
  now apply (rename_loop_refused _ before item after [] w rs r text rest).
Qed.

Lemma batch_rename_aborts_at_first_refusal_witness :
  let w := Sample.world
             [Response (Sample.ok RevaRenameVariableResponse);
              Response (Sample.failed "variable not found"
                                      RevaRenameVariableResponse);
              Response (Sample.ok RevaRenameVariableResponse)] in
  rename_multiple_variables_in_function
    [("a", "b"); ("c", "d"); ("e", "f")] "F" w
  = (Raise (Py.RevaToolException "variable not found"),
     submitted w [RevaRenameVariable {| name := "a" |} "b" "F";
                  RevaRenameVariable {| name := "c" |} "d" "F"]
               [Response (Sample.ok RevaRenameVariableResponse)]).
Proof.
  intros w.
  apply (batch_rename_aborts_at_first_refusal
           [("a", "b")] [("e", "f")] ("c", "d") "F" w
           [Sample.ok RevaRenameVariableResponse]
           (Sample.failed "variable not found" RevaRenameVariableResponse)
           "variable not found"
           [Response (Sample.ok RevaRenameVariableResponse)]).
  - reflexivity.
  - reflexivity.
  - repeat constructor.
  - reflexivity.
  - discriminate.
Defined.

(* ================================================================= *)
(** ** Decompilation *)

(** From the submission on, [get_decompilation_for_function] answers a
    decompilation response that reports no error with the mapping of its
    five fields. *)
Lemma decompilation_returned
      (str_of_response : RevaMessageResponse -> string)
      (x : Py.value) (l : Locals) (w : World)
      (r : RevaMessageResponse) (rest : list Delivered)
      (f sig : string) (a : Z) (dec : string) (vars : list RevaVariable) :
  normalise_argument x = (l, None) ->
  responses w = Response r :: rest ->
  no_error r ->
  body r = RevaGetDecompilationResponse f sig a dec vars ->
  get_decompilation_for_function str_of_response x w
  = (Return [ ("function", VStr f);
              ("function_signature", VStr sig);
              ("address", VStr (Py.hex a));
              ("decompilation", VStr dec);
              ("variables", VVariables vars) ],
     submitted w [RevaGetDecompilation (loc_address l) (loc_name l)] rest).
Proof.
  intros Hx Hw He Hb. unfold get_decompilation_for_function.
  rewrite Hx, (normalised_is_identified x l Hx). tool_steps.
  rewrite (ask_answered _ w r rest Hw). tool_steps.
  rewrite check_error_passes by assumption. tool_steps.
  now rewrite Hb.
Qed.

(** Once the argument is normalised the request is put on the queue,
    whatever comes back. *)
Lemma decompilation_queued
      (str_of_response : RevaMessageResponse -> string)
      (x : Py.value) (l : Locals) (w : World) :
  normalise_argument x = (l, None) ->
  to_send_to_tool (snd (get_decompilation_for_function str_of_response x w))
  = (to_send_to_tool w
       ++ [{| message := RevaGetDecompilation (loc_address l)
                                              (loc_name l) |}])%list.
Proof.
  intros Hx. unfold get_decompilation_for_function.
  rewrite Hx, (normalised_is_identified x l Hx).
  unfold raise_if. unfold bind at 1 2. unfold ret at 1 2.
  cbv beta iota zeta.
  apply asked_then_queued. intros r w'. unfold bind.
  pose proof (check_error_keeps_world r w') as Hc.
  destruct (check_error r w') as [[[] | e |] w'']; cbn [snd] in *;
    subst w''; [destruct (body r) |..]; reflexivity.
Qed.

(** [get_decompilation_for_function] returns only on a decompilation
    response that reports no error. *)
Lemma decompilation_returns_inv
      (str_of_response : RevaMessageResponse -> string)
      (x : Py.value) (w w' : World) (d : list (string * DictValue)) :
  get_decompilation_for_function str_of_response x w = (Return d, w') ->
  exists r rest f sig a dec vars,
    responses w = Response r :: rest
    /\ no_error r
    /\ body r = RevaGetDecompilationResponse f sig a dec vars.
Proof.
  unfold get_decompilation_for_function.
  destruct (normalise_argument x) as [l [e |]]; [discriminate |].
  destruct (check_identifier l); [discriminate |].
  unfold ask, put, wait. tool_steps. cbn [responses].
  destruct (responses w) as [| [r |] rest]; try discriminate.
  cbn [assert_message_response]. tool_steps.
  unfold check_error.
  destruct (error_message r) as [text |] eqn:He.
  - destruct (Py.truthy (Some text)) eqn:Ht; tool_steps; [discriminate |].
    destruct (body r) eqn:Hb; try discriminate.
    intros _. do 7 eexists.
    split; [reflexivity | split; [| exact Hb]].
    unfold no_error. now rewrite He.
  - tool_steps. destruct (body r) eqn:Hb; try discriminate.
    intros _. do 7 eexists.
    split; [reflexivity | split; [| exact Hb]].
    unfold no_error. now rewrite He.
Qed.

(** C10.  The code at a string read as 0 or as a negative number: the
    guard of the [try] raises, the handler catches what it raised, and both
    [address] and [name] are populated; the request goes out with the two.
    A string read as a positive number populates the address alone, and a
    string that is no number the name alone. *)
Theorem nonpositive_address_populates_both
        (str_of_response : RevaMessageResponse -> string) :
  let w := Sample.world [] in
  try_address "0"
  = ({| loc_address := Some 0; loc_name := None |}, Some address_refused)
  /\ normalise_argument (Py.Str "0")
     = ({| loc_address := Some 0; loc_name := Some "0" |}, None)
  /\ to_send_to_tool
       (snd (get_decompilation_for_function str_of_response (Py.Str "0") w))
     = [handler_of (RevaGetDecompilation (Some 0) (Some "0"))]
  /\ normalise_argument (Py.Str " -0X1F ")
     = ({| loc_address := Some (-31); loc_name := Some " -0X1F " |}, None)
  /\ normalise_argument (Py.Str "deadbeef")
     = ({| loc_address := Some 3735928559; loc_name := None |}, None)
  /\ normalise_argument (Py.Str "")
     = ({| loc_address := None; loc_name := Some "" |}, None).
Proof. repeat split. Qed.

(** C8, as stated, fails: asked for address 0x10, the function returns the
    address of the response, here 0x20. *)
Lemma returned_address_is_from_response :
  let w := Sample.world
             [Response (Sample.ok (RevaGetDecompilationResponse
                                     "main" "int main(void)" 32
                                     "return 0;" []))] in
  let outcome :=
    fst (get_decompilation_for_function Sample.str_of_response
                                        (Py.Str "10") w) in
  Py.int_of_str 16 "10" = Some 16
  /\ outcome = Return [ ("function", VStr "main");
                        ("function_signature", VStr "int main(void)");
                        ("address", VStr "0x20");
                        ("decompilation", VStr "return 0;");
                        ("variables", VVariables []) ]
  /\ Py.int_of_str 16 "0x20" = Some 32
  /\ ~ (forall d, outcome = Return d ->
                  exists t, dict_get d "address" = Some (VStr t)
                            /\ Py.int_of_str 16 t = Some 16).
Proof.
  intros w outcome.
  split; [reflexivity | split; [reflexivity | split; [reflexivity |]]].
  intros H. destruct (H _ eq_refl) as (t & Ht & Hp).
  cbv in Ht. injection Ht as <-. discriminate Hp.
Qed.

(** C8, amended.  A lookup by a string that [int(_, 16)] reads as a
    positive number, answered by a decompilation response that reports no
    error, returns a mapping whose "address" is [hex] of the address the
    response carries; read back with [int(_, 16)] it is that address,
    and so it is the address asked for exactly when the response carries
    it. *)
Theorem returned_address_reparses
        (str_of_response : RevaMessageResponse -> string)
        (s : string) (a : Z) (w : World)
        (r : RevaMessageResponse) (rest : list Delivered)
        (f sig : string) (a' : Z) (dec : string)
        (vars : list RevaVariable) :
  Py.int_of_str 16 s = Some a ->
  0 < a ->
  responses w = Response r :: rest ->
  no_error r ->
  body r = RevaGetDecompilationResponse f sig a' dec vars ->
  exists d t,
    get_decompilation_for_function str_of_response (Py.Str s) w
    = (Return d, submitted w [RevaGetDecompilation (Some a) None] rest)
    /\ dict_get d "address" = Some (VStr t)
    /\ t = Py.hex a'
    /\ Py.int_of_str 16 t = Some a'
    /\ (Py.int_of_str 16 t = Some a <-> a' = a).
Proof.
  intros Hs Hpos Hw He Hb.
  assert (Hx : normalise_argument (Py.Str s)
               = ({| loc_address := Some a; loc_name := None |}, None)).
  { rewrite normalise_string, Hs.
    destruct (Z.leb_spec a 0); [lia | reflexivity]. }
  eexists. exists (Py.hex a'). split.
  - exact (decompilation_returned str_of_response _ _ w r rest
                                  f sig a' dec vars Hx Hw He Hb).
  - split; [reflexivity | split; [reflexivity |]].
    rewrite int_of_hex. split; [reflexivity |].
    split; [intros H; now injection H | intros ->; reflexivity].
Qed.

Lemma returned_address_reparses_witness :
  let w := Sample.world
             [Response (Sample.ok (RevaGetDecompilationResponse
                                     "main" "int main(void)" 3735928559
                                     "return 0;" []))] in
  exists d t,
    get_decompilation_for_function Sample.str_of_response
                                   (Py.Str "0xDEADBEEF") w
    = (Return d, submitted w [RevaGetDecompilation (Some 3735928559) None] [])
    /\ dict_get d "address" = Some (VStr t)
    /\ t = Py.hex 3735928559
    /\ Py.int_of_str 16 t = Some 3735928559
    /\ (Py.int_of_str 16 t = Some 3735928559 <-> 3735928559 = 3735928559).
Proof.
  intros w.
  apply (returned_address_reparses
           Sample.str_of_response "0xDEADBEEF" 3735928559 w
           (Sample.ok (RevaGetDecompilationResponse
                         "main" "int main(void)" 3735928559 "return 0;" []))
           [] "main" "int main(void)" 3735928559 "return 0;" []).
  - reflexivity.
  - reflexivity.
  - reflexivity.
  - reflexivity.
  - reflexivity.
Defined.

(** Examples of [int(_, 16)] and [hex]. *)
Example int_of_str_examples :
  Py.int_of_str 16 "deadbeef" = Some 3735928559
  /\ Py.int_of_str 16 " -0X1F " = Some (-31)
  /\ Py.int_of_str 16 "0x_1f" = Some 31
  /\ Py.int_of_str 16 "1__2" = None
  /\ Py.int_of_str 16 "main" = None
  /\ Py.int_of_str 16 "" = None
  /\ Py.int_of_str 10 "007" = Some 7
  /\ Py.hex 3735928559 = "0xdeadbeef"
  /\ Py.hex (-255) = "-0xff"
  /\ Py.hex 0 = "0x0".
Proof. repeat split. Qed.

(* ================================================================= *)
(** ** Names made of hexadecimal digits *)

Lemma hex_digit_char (c : ascii) :
  is_hex_digit c = true ->
  Py.ascii_space c = c
  /\ Py.is_space c = false
  /\ (c =? "_")%char = false
  /\ (c =? "x")%char = false
  /\ (c =? "X")%char = false
  /\ Py.strip_sign (String c EmptyString) = (1, String c EmptyString)
  /\ Py.strip_prefix 16 (String c EmptyString) = String c EmptyString.
Proof.
  destruct c as [[] [] [] [] [] [] [] []]; intros H;
    try discriminate H; repeat split; reflexivity.
Qed.

Lemma strip_sign_other (c : ascii) (r : string) :
  Py.strip_sign (String c r)
  = (fst (Py.strip_sign (String c EmptyString)),
     if (c =? "+")%char || (c =? "-")%char then r else String c r).
Proof. destruct c as [[] [] [] [] [] [] [] []]; reflexivity. Qed.

Lemma strip_prefix_other (c c2 : ascii) (r : string) :
  (c2 =? "x")%char = false -> (c2 =? "X")%char = false ->
  Py.strip_prefix 16 (String c (String c2 r)) = String c (String c2 r).
Proof.
  intros Hx HX.
  destruct c as [[] [] [] [] [] [] [] []]; try reflexivity.
  destruct c2 as [[] [] [] [] [] [] [] []];
    try reflexivity; discriminate.
Qed.

Lemma transform_space_hex (s : string) :
  all_hex_digits s = true -> Py.transform_space s = s.
Proof.
  induction s as [| c r IH]; [reflexivity |]. cbn.
  intros H. apply andb_prop in H as [Hc Hr].
  rewrite (IH Hr). now destruct (hex_digit_char c Hc) as (-> & _).
Qed.

Lemma scan_all_hex_digits (s : string) :
  forall acc n us,
    all_hex_digits s = true ->
    s <> EmptyString \/ us = false ->
    Py.scan_digits 16 s acc n us
    = Some (hex_value acc s, (n + String.length s)%nat, EmptyString).
Proof.
  induction s as [| c r IH]; intros acc n us H Hne.
  - destruct Hne as [Hne | ->]; [now contradiction Hne |].
    cbn. now rewrite Nat.add_0_r.
  - cbn in H. apply andb_prop in H as [Hc Hr].
    destruct (hex_digit_char c Hc) as (_ & _ & Hus & _).
    cbn [Py.scan_digits hex_value String.length]. rewrite Hus.
    unfold is_hex_digit in Hc.
    destruct (Py.digit_value c) as [d |]; [| discriminate Hc].
    rewrite Hc, (IH _ _ false Hr) by (now right).
    now rewrite Nat.add_succ_r.
Qed.

(** [int(s, 16)] reads every non-empty string of hexadecimal digits. *)
Lemma int_of_hex_digits (s : string) :
  s <> EmptyString -> all_hex_digits s = true ->
  Py.int_of_str 16 s = Some (hex_value 0 s).
Proof.
  intros Hne H. unfold Py.int_of_str. rewrite (transform_space_hex s H).
  destruct s as [| c r]; [now contradiction Hne |].
  pose proof (scan_all_hex_digits (String c r) 0 0%nat false H
                                  (or_introl Hne)) as Hscan.
  cbn in H. apply andb_prop in H as [Hc Hr].
  destruct (hex_digit_char c Hc) as (_ & Hsp & Hus & _ & _ & Hsign & Hpre).
  cbn [Py.skip_spaces]. rewrite Hsp, strip_sign_other, Hsign. cbn [fst].
  assert (Hpm : ((c =? "+")%char || (c =? "-")%char) = false).
  { clear - Hc. destruct c as [[] [] [] [] [] [] [] []];
      try discriminate Hc; reflexivity. }
  rewrite Hpm.
  assert (Hp : Py.strip_prefix 16 (String c r) = String c r).
  { destruct r as [| c2 r2]; [exact Hpre |].
    cbn in Hr. apply andb_prop in Hr as [Hc2 _].
    destruct (hex_digit_char c2 Hc2) as (_ & _ & _ & Hx & HX & _).
    now apply strip_prefix_other. }
  cbv zeta. rewrite Hp. cbn [Py.starts_with_underscore]. rewrite Hus.
  rewrite Hscan. cbn [String.length Nat.add Py.skip_spaces].
  f_equal. lia.
Qed.

Lemma digit_value_nonneg (c : ascii) (d : Z) :
  Py.digit_value c = Some d -> 0 <= d.
Proof.
  unfold Py.digit_value.
  repeat match goal with
         | |- context [if ?b then _ else _] => destruct b eqn:?
         end; intros H; inversion H; subst; lia.
Qed.

Lemma hex_value_nonneg (s : string) :
  forall acc, 0 <= acc -> 0 <= hex_value acc s.
Proof.
  induction s as [| c r IH]; intros acc Hacc; cbn; [assumption |].
  destruct (Py.digit_value c) as [d |] eqn:Hd; [| assumption].
  apply IH. pose proof (digit_value_nonneg c d Hd). lia.
Qed.

(** What the normalisation makes of a string that [int(_, 16)] reads. *)
Lemma normalise_number (s : string) (a : Z) :
  Py.int_of_str 16 s = Some a ->
  normalise_argument (Py.Str s)
  = ({| loc_address := Some a;
        loc_name := if a <=? 0 then Some s else None |}, None).
Proof. intros H. now rewrite normalise_string, H. Qed.

(** The run of [get_decompilation_for_function] on a string that
    [int(_, 16)] reads as [a]: the request asks for the address [a], and
    carries the string as the name as well when [a] is not positive. *)
Lemma decompilation_of_number
      (str_of_response : RevaMessageResponse -> string)
      (s : string) (a : Z) (w : World) :
  Py.int_of_str 16 s = Some a ->
  to_send_to_tool
    (snd (get_decompilation_for_function str_of_response (Py.Str s) w))
  = (to_send_to_tool w
       ++ [handler_of (RevaGetDecompilation
                         (Some a) (if a <=? 0 then Some s else None))])%list.
Proof.
  intros Hs.
  apply (decompilation_queued
           str_of_response (Py.Str s)
           {| loc_address := Some a;
              loc_name := if a <=? 0 then Some s else None |}).
  now apply normalise_number.
Qed.

(** X1.  A non-empty argument written with hexadecimal digits only, in
    either case, is never looked up by its name alone: the request always
    carries the number it writes as the address.  When that number is
    positive the request carries no name; when it is 0 nothing is refused
    and the request carries the address 0 together with the string as the
    name. *)
Theorem hex_digit_name_is_an_address
        (str_of_response : RevaMessageResponse -> string)
        (s : string) (w : World) :
  s <> EmptyString ->
  all_hex_digits s = true ->
  let v := hex_value 0 s in
  let sent_name := if v <=? 0 then Some s else None in
  0 <= v
  /\ normalise_argument (Py.Str s)
     = ({| loc_address := Some v; loc_name := sent_name |}, None)
  /\ to_send_to_tool
       (snd (get_decompilation_for_function str_of_response (Py.Str s) w))
     = (to_send_to_tool w
          ++ [handler_of (RevaGetDecompilation (Some v) sent_name)])%list.
Proof.
  intros Hne Hall. cbv zeta.
  pose proof (int_of_hex_digits s Hne Hall) as Hint.
  split; [apply hex_value_nonneg; lia |].
  split; [now apply normalise_number |].
  now apply (decompilation_of_number str_of_response s _ w).
Qed.

Lemma hex_digit_name_is_an_address_witness :
  let w := Sample.world [] in
  (0 <= hex_value 0 "Add"
   /\ normalise_argument (Py.Str "Add")
      = ({| loc_address := Some 2781; loc_name := None |}, None)
   /\ to_send_to_tool
        (snd (get_decompilation_for_function Sample.str_of_response
                                             (Py.Str "Add") w))
      = [handler_of (RevaGetDecompilation (Some 2781) None)])
  /\ (0 <= hex_value 0 "00"
      /\ normalise_argument (Py.Str "00")
         = ({| loc_address := Some 0; loc_name := Some "00" |}, None)
      /\ to_send_to_tool
           (snd (get_decompilation_for_function Sample.str_of_response
                                                (Py.Str "00") w))
         = [handler_of (RevaGetDecompilation (Some 0) (Some "00"))]).
Proof.
  intros w. split.
  - apply (hex_digit_name_is_an_address Sample.str_of_response "Add" w).
    + discriminate.
    + reflexivity.
  - apply (hex_digit_name_is_an_address Sample.str_of_response "00" w).
    + discriminate.
    + reflexivity.
Defined.

(** X2.  The "address" string that [get_decompilation_for_function]
    returns can be passed back to it, and the new request asks for
    exactly the address the response carried.  When that address is
    positive the request carries no name; when it is 0 or negative
    nothing is refused and the request carries the returned string as the
    name as well. *)
Theorem returned_address_asks_again
        (str_of_response : RevaMessageResponse -> string)
        (x : Py.value) (l : Locals) (w w2 : World)
        (r : RevaMessageResponse) (rest : list Delivered)
        (f sig : string) (a : Z) (dec : string)
        (vars : list RevaVariable) :
  normalise_argument x = (l, None) ->
  responses w = Response r :: rest ->
  no_error r ->
  body r = RevaGetDecompilationResponse f sig a dec vars ->
  exists d t,
    fst (get_decompilation_for_function str_of_response x w) = Return d
    /\ dict_get d "address" = Some (VStr t)
    /\ to_send_to_tool
         (snd (get_decompilation_for_function str_of_response
                                              (Py.Str t) w2))
       = (to_send_to_tool w2
            ++ [handler_of (RevaGetDecompilation
                              (Some a) (if a <=? 0 then Some t else None))]
         )%list.
Proof.
  intros Hx Hw He Hb. eexists. exists (Py.hex a). split.
  - now rewrite (decompilation_returned str_of_response x l w r rest
                                        f sig a dec vars Hx Hw He Hb).
  - split; [reflexivity |].
    apply (decompilation_of_number str_of_response (Py.hex a) a w2).
    apply int_of_hex.
Qed.

Lemma returned_address_asks_again_witness :
  let w := Sample.world
             [Response (Sample.ok (RevaGetDecompilationResponse
                                     "main" "int main(void)" (-31)
                                     "return 0;" []))] in
  let w2 := Sample.world [] in
  exists d t,
    fst (get_decompilation_for_function Sample.str_of_response
                                        (Py.Str "main") w) = Return d
    /\ dict_get d "address" = Some (VStr t)
    /\ to_send_to_tool
         (snd (get_decompilation_for_function Sample.str_of_response
                                              (Py.Str t) w2))
       = (to_send_to_tool w2
            ++ [handler_of (RevaGetDecompilation
                              (Some (-31))
                              (if -31 <=? 0 then Some t else None))])%list.
Proof.
  intros w w2.
  apply (returned_address_asks_again
           Sample.str_of_response (Py.Str "main")
           {| loc_address := None; loc_name := Some "main" |} w w2
           (Sample.ok (RevaGetDecompilationResponse
                         "main" "int main(void)" (-31) "return 0;" []))
           [] "main" "int main(void)" (-31) "return 0;" []);
    reflexivity.
Defined.

(* ================================================================= *)
(** ** One request, one answer *)

Lemma ask_world (m : RevaMessage) (w : World) :
  snd (ask m w) = submitted w [m] (tl (responses w)).
Proof.
  unfold ask, bind, put, wait, submitted. cbn.
  destruct (responses w) as [| [r |] rest]; reflexivity.
Qed.

Lemma asked_world {A : Type} (m : RevaMessage)
      (k : RevaMessageResponse -> Tool A) (w : World) :
  (forall r w', snd (k r w') = w') ->
  snd (bind (ask m) k w) = submitted w [m] (tl (responses w)).
Proof.
  intros Hk. unfold bind. pose proof (ask_world m w) as Hq.
  destruct (ask m w) as [[r | e |] w']; cbn [snd] in *;
    [now rewrite Hk | assumption | assumption].
Qed.

(** What follows the check of the error description leaves the world
    alone. *)
Lemma checked_keeps_world {A : Type} (r : RevaMessageResponse)
      (k : Tool A) (w : World) :
  (forall w', snd (k w') = w') ->
  snd (bind (check_error r) (fun _ => k) w) = w.
Proof.
  intros Hk. unfold bind. pose proof (check_error_keeps_world r w) as Hc.
  destruct (check_error r w) as [[[] | e |] w']; cbn [snd] in *;
    subst w'; [apply Hk | reflexivity | reflexivity].
Qed.

Lemma submitted_changes (w : World) (m : RevaMessage)
      (rest : list Delivered) :
  submitted w [m] rest <> w.
Proof.
  intros H. apply (f_equal to_send_to_tool) in H. cbn in H.
  apply (f_equal (@List.length _)) in H.
  rewrite length_app in H. cbn in H. lia.
Qed.

Lemma decompilation_world
      (str_of_response : RevaMessageResponse -> string)
      (x : Py.value) (l : Locals) (w : World) :
  normalise_argument x = (l, None) ->
  snd (get_decompilation_for_function str_of_response x w)
  = submitted w [RevaGetDecompilation (loc_address l) (loc_name l)]
              (tl (responses w)).
Proof.
  intros Hx. unfold get_decompilation_for_function.
  rewrite Hx, (normalised_is_identified x l Hx).
  unfold raise_if. unfold bind at 1 2. unfold ret at 1 2.
  cbv beta iota zeta.
  apply asked_world. intros r w'. apply checked_keeps_world.
  intros w''. destruct (body r); reflexivity.
Qed.

Lemma list_world
      (repr : string -> string)
      (str_of_response : RevaMessageResponse -> string)
      (p ps : Py.value) (page page_size : Z) (w : World) :
  as_int p = Some page -> as_int ps = Some page_size -> page <> 0 ->
  snd (get_defined_function_list_paginated repr str_of_response p ps w)
  = submitted w [RevaGetDefinedFunctionList page page_size]
              (tl (responses w)).
Proof.
  intros Hp Hps Hz. unfold get_defined_function_list_paginated.
  unfold bind at 1. rewrite coerce_int_as_int, Hp.
  unfold bind at 1. rewrite coerce_int_as_int, Hps.
  destruct (Z.eqb_spec page 0); [contradiction |].
  unfold bind at 1. unfold ret at 1. cbv beta iota zeta.
  apply asked_world. intros r w'. apply checked_keeps_world.
  intros w''. destruct (body r); reflexivity.
Qed.

(** X3.  [get_decompilation_for_function] fails before submitting
    anything exactly when its argument is an [int], which [int(x, 16)]
    refuses with a [TypeError].  For every string the request is put on
    the queue and the first answer taken: the request asks for the number
    as the address when [int(_, 16)] reads the string, with the string as
    the name as well when the number is 0 or negative, and for the string
    as the name when [int(_, 16)] rejects it. *)
Theorem decompilation_fails_locally_iff
        (str_of_response : RevaMessageResponse -> string)
        (x : Py.value) (w : World) :
  let run := get_decompilation_for_function str_of_response x w in
  (fails_locally (get_decompilation_for_function str_of_response x) w
   <-> exists z, x = Py.Int z)
  /\ match x with
     | Py.Int _ =>
         run = (Raise (Py.TypeError
                         "int() can't convert non-string with explicit base"),
                w)
     | Py.Str s =>
         snd run
         = submitted w
             [match Py.int_of_str 16 s with
              | Some a =>
                  RevaGetDecompilation
                    (Some a) (if a <=? 0 then Some s else None)
              | None => RevaGetDecompilation None (Some s)
              end]
             (tl (responses w))
     end.
Proof.
  cbv zeta.
  assert (Hstr : forall s,
             snd (get_decompilation_for_function str_of_response
                                                 (Py.Str s) w)
             = submitted w
                 [match Py.int_of_str 16 s with
                  | Some a =>
                      RevaGetDecompilation
                        (Some a) (if a <=? 0 then Some s else None)
                  | None => RevaGetDecompilation None (Some s)
                  end]
                 (tl (responses w))).
  { intros s.
    rewrite (decompilation_world str_of_response (Py.Str s) _ w
                                 (normalise_string s)).
    now destruct (Py.int_of_str 16 s). }
  split.
  - split.
    + intros [e He]. destruct x as [z | s]; [now exists z |].
      exfalso. specialize (Hstr s). rewrite He in Hstr. cbn [snd] in Hstr.
      eapply submitted_changes. symmetry. exact Hstr.
    + intros [z ->]. eexists. reflexivity.
  - destruct x as [z | s]; [reflexivity | apply Hstr].
Qed.

(** X4.  [get_defined_function_list_paginated] fails before submitting
    anything exactly when [page] or [page_size] is a string that [int]
    rejects, or when [page] is 0 or a string read as 0.  In every other
    case the request for the two integers is put on the queue and the
    first answer taken. *)
Theorem list_fails_locally_iff
        (repr : string -> string)
        (str_of_response : RevaMessageResponse -> string)
        (page page_size : Py.value) (w : World) :
  let refused :=
    as_int page = None \/ as_int page_size = None \/ as_int page = Some 0 in
  (fails_locally
     (get_defined_function_list_paginated repr str_of_response
                                          page page_size) w
   <-> refused)
  /\ (refused
      \/ exists p ps,
        as_int page = Some p /\ as_int page_size = Some ps /\ p <> 0
        /\ snd (get_defined_function_list_paginated
                  repr str_of_response page page_size w)
           = submitted w [RevaGetDefinedFunctionList p ps]
                       (tl (responses w))).
Proof.
  cbv zeta. split; [split |].
  - intros [e He].
    destruct (as_int page) as [p |] eqn:Hp; [| now left].
    destruct (as_int page_size) as [ps |] eqn:Hps; [| right; now left].
    destruct (Z.eq_dec p 0) as [-> | Hz]; [right; now right |].
    exfalso.
    pose proof (list_world repr str_of_response page page_size p ps w
                           Hp Hps Hz) as Hw.
    rewrite He in Hw. cbn [snd] in Hw.
    eapply submitted_changes. symmetry. exact Hw.
  - unfold fails_locally, get_defined_function_list_paginated.
    unfold bind at 1. rewrite coerce_int_as_int.
    destruct (as_int page) as [p |] eqn:Hp.
    + unfold bind at 1. rewrite coerce_int_as_int.
      destruct (as_int page_size) as [ps |] eqn:Hps.
      * intros [H | [H | H]]; try discriminate H.
        injection H as ->. eexists. reflexivity.
      * intros _. eexists. reflexivity.
    + intros _. eexists. reflexivity.
  - destruct (as_int page) as [p |] eqn:Hp; [| left; now left].
    destruct (as_int page_size) as [ps |] eqn:Hps;
      [| left; right; now left].
    destruct (Z.eq_dec p 0) as [-> | Hz]; [left; right; now right |].
    right. exists p, ps. repeat split; try assumption.
    now apply (list_world repr str_of_response page page_size p ps w).
Qed.

Lemma rename_world (new_name old_name containing_function : string)
      (w : World) :
  snd (rename_variable_in_function new_name old_name containing_function w)
  = submitted w [rename_request containing_function (old_name, new_name)]
              (tl (responses w)).
Proof.
  unfold rename_variable_in_function. apply asked_world.
  intros r w'. now apply checked_keeps_world.
Qed.

(** X5.  A call of a tool function exchanges at most one message with the
    backend: it leaves the world as it was, or it has put exactly one
    request on the queue and taken the first answer that was to come.
    The count, the rename and the reference look-up always submit. *)
Theorem each_call_exchanges_once
        (repr : string -> string)
        (str_of_response : RevaMessageResponse -> string) (w : World) :
  (forall x,
      let w' := snd (get_decompilation_for_function str_of_response x w) in
      w' = w \/ exists m, w' = submitted w [m] (tl (responses w)))
  /\ (forall page page_size,
         let w' := snd (get_defined_function_list_paginated
                          repr str_of_response page page_size w) in
         w' = w \/ exists m, w' = submitted w [m] (tl (responses w)))
  /\ snd (get_defined_function_count str_of_response w)
     = submitted w [RevaGetFunctionCount] (tl (responses w))
  /\ (forall new_name old_name containing_function,
         snd (rename_variable_in_function new_name old_name
                                          containing_function w)
         = submitted w [RevaRenameVariable {| name := old_name |} new_name
                                           containing_function]
                     (tl (responses w)))
  /\ (forall address_or_symbol,
         snd (get_references str_of_response address_or_symbol w)
         = submitted w [RevaGetReferences address_or_symbol]
                     (tl (responses w))).
Proof.
  repeat split.
  - intros x. cbv zeta.
    destruct (normalise_argument x) as [l [e |]] eqn:Hx.
    + left. unfold get_decompilation_for_function. now rewrite Hx.
    + right. eexists. exact (decompilation_world _ x l w Hx).
  - intros page page_size. cbv zeta.
    destruct (as_int page) as [p |] eqn:Hp;
      [destruct (as_int page_size) as [ps |] eqn:Hps;
       [destruct (Z.eq_dec p 0) as [-> | Hz] |] |].
    + left. unfold get_defined_function_list_paginated.
      unfold bind at 1. rewrite coerce_int_as_int, Hp.
      unfold bind at 1. now rewrite coerce_int_as_int, Hps.
    + right. eexists.
      exact (list_world _ _ page page_size p ps w Hp Hps Hz).
    + left. unfold get_defined_function_list_paginated.
      unfold bind at 1. rewrite coerce_int_as_int, Hp.
      unfold bind at 1. now rewrite coerce_int_as_int, Hps.
    + left. unfold get_defined_function_list_paginated.
      unfold bind at 1. now rewrite coerce_int_as_int, Hp.
  - unfold get_defined_function_count. apply asked_world.
    intros r w'. apply checked_keeps_world.
    intros w''. destruct (body r); reflexivity.
  - intros. apply rename_world.
  - intros. unfold get_references. apply asked_world.
    intros r w'. apply checked_keeps_world.
    intros w''. destruct (body r); reflexivity.
Qed.

Lemma ask_not_a_response (m : RevaMessage) (w : World)
      (rest : list Delivered) :
  responses w = NotAResponse :: rest ->
  ask m w = (Raise not_a_response, submitted w [m] rest).
Proof. intros H. unfold ask, bind, put, wait. cbn. now rewrite H. Qed.

(** X6.  When what the handler delivers is not a response message, each
    of the five operations, its request submitted, stops with the
    [AssertionError] "Incorrect type returned from callback handler." *)
Theorem foreign_object_fails_assertion
        (repr : string -> string)
        (str_of_response : RevaMessageResponse -> string)
        (w : World) (rest : list Delivered) :
  responses w = NotAResponse :: rest ->
  (forall x l,
      normalise_argument x = (l, None) ->
      get_decompilation_for_function str_of_response x w
      = (Raise not_a_response,
         submitted w [RevaGetDecompilation (loc_address l) (loc_name l)]
                   rest))
  /\ (forall p ps page page_size,
         as_int p = Some page -> as_int ps = Some page_size -> page <> 0 ->
         get_defined_function_list_paginated repr str_of_response p ps w
         = (Raise not_a_response,
            submitted w [RevaGetDefinedFunctionList page page_size] rest))
  /\ get_defined_function_count str_of_response w
     = (Raise not_a_response, submitted w [RevaGetFunctionCount] rest)
  /\ (forall new_name old_name containing_function,
         rename_variable_in_function new_name old_name containing_function w
         = (Raise not_a_response,
            submitted w [RevaRenameVariable {| name := old_name |} new_name
                                            containing_function] rest))
  /\ (forall address_or_symbol,
         get_references str_of_response address_or_symbol w
         = (Raise not_a_response,
            submitted w [RevaGetReferences address_or_symbol] rest)).
Proof.
  intros Hw.
  assert (Hask : forall m, ask m w = (Raise not_a_response,
                                      submitted w [m] rest))
    by (intros m; now apply ask_not_a_response).
  repeat split.
  - intros x l Hx. unfold get_decompilation_for_function.
    rewrite Hx, (normalised_is_identified x l Hx).
    tool_steps. now rewrite Hask.
  - intros p ps page page_size Hp Hps Hz.
    unfold get_defined_function_list_paginated. tool_steps.
    rewrite coerce_int_as_int, Hp. tool_steps.
    rewrite coerce_int_as_int, Hps. tool_steps.
    destruct (Z.eqb_spec page 0); [contradiction |].
    tool_steps. now rewrite Hask.
  - unfold get_defined_function_count. tool_steps. now rewrite Hask.
  - intros. unfold rename_variable_in_function. tool_steps.
    now rewrite Hask.
  - intros. unfold get_references. tool_steps. now rewrite Hask.
Qed.

Lemma foreign_object_fails_assertion_witness :
  let w := Sample.world [NotAResponse] in
  get_defined_function_count Sample.str_of_response w
  = (Raise not_a_response, submitted w [RevaGetFunctionCount] [])
  /\ get_references Sample.str_of_response "memcpy" w
     = (Raise not_a_response, submitted w [RevaGetReferences "memcpy"] []).
Proof.
  intros w.
  destruct (foreign_object_fails_assertion
              Sample.repr Sample.str_of_response w [] eq_refl)
    as (_ & _ & Hcount & _ & Hrefs).
  split; [exact Hcount | exact (Hrefs "memcpy")].
Defined.

(* ================================================================= *)
(** ** The paginated list and the count *)

(** X7.  An argument of [get_defined_function_list_paginated] given as a
    numeric string behaves as the integer it writes. *)
Theorem numeric_strings_are_integers
        (repr : string -> string)
        (str_of_response : RevaMessageResponse -> string)
        (p ps : Py.value) (page page_size : Z) (w : World) :
  as_int p = Some page ->
  as_int ps = Some page_size ->
  get_defined_function_list_paginated repr str_of_response p ps w
  = get_defined_function_list_paginated repr str_of_response
                                        (Py.Int page) (Py.Int page_size) w.
Proof.
  intros Hp Hps. unfold get_defined_function_list_paginated.
  unfold bind at 1 3. rewrite !coerce_int_as_int, Hp. cbn [as_int].
  unfold bind at 1 3. now rewrite !coerce_int_as_int, Hps.
Qed.

Lemma numeric_strings_are_integers_witness :
  let w := Sample.world
             [Response (Sample.ok (RevaGetDefinedFunctionListResponse
                                     ["main"; "init"]))] in
  get_defined_function_list_paginated
    Sample.repr Sample.str_of_response (Py.Str " +2 ") (Py.Str "1_0") w
  = get_defined_function_list_paginated
      Sample.repr Sample.str_of_response (Py.Int 2) (Py.Int 10) w.
Proof.
  intros w.
  apply (numeric_strings_are_integers
           Sample.repr Sample.str_of_response
           (Py.Str " +2 ") (Py.Str "1_0") 2 10 w);
    reflexivity.
Defined.

(** [ask] returns exactly the response that was first to come. *)
Lemma ask_returns_inv (m : RevaMessage) (w w' : World)
      (r : RevaMessageResponse) :
  ask m w = (Return r, w') ->
  exists rest, responses w = Response r :: rest
               /\ w' = submitted w [m] rest.
Proof.
  unfold ask, bind, put, wait. cbn.
  destruct (responses w) as [| [r0 |] rest]; cbn; try discriminate.
  intros H. injection H as <- <-. now exists rest.
Qed.

Lemma check_error_returns_inv (r : RevaMessageResponse) (w w' : World) :
  check_error r w = (Return tt, w') -> no_error r /\ w' = w.
Proof.
  unfold check_error, no_error.
  destruct (error_message r) as [text |].
  - destruct (Py.truthy (Some text)); [discriminate |].
    intros H. now injection H as <-.
  - intros H. now injection H as <-.
Qed.

(** Splits the run of a function that asks, checks the error description
    and then reads the body, when the run returns. *)
Ltac returned_run H :=
  unfold bind in H;
  match type of H with
  | context [ask ?m ?w] =>
      let Ha := fresh "Ha" in
      destruct (ask m w) as [[?r | ?e |] ?w1] eqn:Ha;
      try discriminate H;
      apply ask_returns_inv in Ha; destruct Ha as (?rest & ?Hw & ->)
  end;
  match type of H with
  | context [check_error ?r ?w] =>
      let Hc := fresh "Hc" in
      destruct (check_error r w) as [[[] | ?e |] ?w2] eqn:Hc;
      try discriminate H;
      apply check_error_returns_inv in Hc; destruct Hc as (?He & ->)
  end.

(** X8.  [get_defined_function_list_paginated] returns a list exactly
    when both arguments stand for integers, the page is not 0, and the
    answer is a function-list response that reports no error; the list
    returned is the list of the response as it came, whatever its length
    and whatever the page size. *)
Theorem list_returns_iff
        (repr : string -> string)
        (str_of_response : RevaMessageResponse -> string)
        (p ps : Py.value) (w : World) (l : list string) :
  fst (get_defined_function_list_paginated repr str_of_response p ps w)
  = Return l
  <-> exists page page_size r rest,
      as_int p = Some page /\ as_int ps = Some page_size /\ page <> 0
      /\ responses w = Response r :: rest
      /\ no_error r
      /\ body r = RevaGetDefinedFunctionListResponse l.
Proof.
  split.
  - unfold get_defined_function_list_paginated.
    unfold bind at 1. rewrite coerce_int_as_int.
    destruct (as_int p) as [page |]; [| discriminate].
    unfold bind at 1. rewrite coerce_int_as_int.
    destruct (as_int ps) as [page_size |]; [| discriminate].
    unfold bind at 1.
    destruct (Z.eqb_spec page 0) as [| Hz]; [discriminate |].
    unfold ret at 1. cbv beta iota.
    intros H. returned_run H.
    destruct (body r) eqn:Hb; try discriminate H.
    injection H as ->. exists page, page_size, r, rest. now repeat split.
  - intros (page & page_size & r & rest & Hp & Hps & Hz & Hw & He & Hb).
    unfold get_defined_function_list_paginated. tool_steps.
    rewrite coerce_int_as_int, Hp. tool_steps.
    rewrite coerce_int_as_int, Hps. tool_steps.
    destruct (Z.eqb_spec page 0); [contradiction |]. tool_steps.
    rewrite (ask_answered _ w r rest Hw). tool_steps.
    rewrite check_error_passes by assumption. tool_steps.
    now rewrite Hb.
Qed.

(** X9.  [get_defined_function_count] returns a number exactly when the
    answer is a function-count response that reports no error, and the
    number is the one the response carries, negative ones included. *)
Theorem count_returns_iff
        (str_of_response : RevaMessageResponse -> string)
        (w : World) (n : Z) :
  fst (get_defined_function_count str_of_response w) = Return n
  <-> exists r rest,
      responses w = Response r :: rest
      /\ no_error r
      /\ body r = RevaGetFunctionCountResponse n.
Proof.
  split.
  - unfold get_defined_function_count. intros H. returned_run H.
    destruct (body r) eqn:Hb; try discriminate H.
    injection H as ->. exists r, rest. now repeat split.
  - intros (r & rest & Hw & He & Hb).
    unfold get_defined_function_count. tool_steps.
    rewrite (ask_answered _ w r rest Hw). tool_steps.
    rewrite check_error_passes by assumption. tool_steps.
    now rewrite Hb.
Qed.

(** X10.  [get_references] returns a mapping exactly when the answer is a
    references response that reports no error; the mapping has the keys
    "references_to" and "references_from", in that order, bound to the two
    lists of the response as they came. *)
Theorem references_returns_iff
        (str_of_response : RevaMessageResponse -> string)
        (address_or_symbol : string) (w : World)
        (d : list (string * list string)) :
  fst (get_references str_of_response address_or_symbol w) = Return d
  <-> exists r rest refs_to refs_from,
      responses w = Response r :: rest
      /\ no_error r
      /\ body r = RevaGetReferencesResponse refs_to refs_from
      /\ d = [("references_to", refs_to); ("references_from", refs_from)].
Proof.
  split.
  - unfold get_references. intros H. returned_run H.
    destruct (body r) as [| | | | refs_to refs_from |] eqn:Hb;
      try discriminate H.
    injection H as <-. exists r, rest, refs_to, refs_from.
    now repeat split.
  - intros (r & rest & refs_to & refs_from & Hw & He & Hb & ->).
    unfold get_references. tool_steps.
    rewrite (ask_answered _ w r rest Hw). tool_steps.
    rewrite check_error_passes by assumption. tool_steps.
    now rewrite Hb.
Qed.

(* ================================================================= *)
(** ** What a rename reads of its answer *)

(** X11.  The outcome of [rename_variable_in_function] depends on the
    error description of the response and on nothing else in it: two
    responses with the same description, of whatever kinds, give the same
    outcome. *)
Theorem rename_reads_only_the_error
        (new_name old_name containing_function : string)
        (w1 w2 : World) (r1 r2 : RevaMessageResponse)
        (rest1 rest2 : list Delivered) :
  responses w1 = Response r1 :: rest1 ->
  responses w2 = Response r2 :: rest2 ->
  error_message r1 = error_message r2 ->
  fst (rename_variable_in_function new_name old_name containing_function w1)
  = fst (rename_variable_in_function new_name old_name
                                     containing_function w2).
Proof.
  intros H1 H2 He. unfold rename_variable_in_function. tool_steps.
  rewrite (ask_answered _ w1 r1 rest1 H1), (ask_answered _ w2 r2 rest2 H2).
  tool_steps. unfold check_error. rewrite He.
  destruct (error_message r2) as [text |];
    [destruct (Py.truthy (Some text)) |]; reflexivity.
Qed.

Lemma rename_reads_only_the_error_witness :
  fst (rename_variable_in_function
         "b" "a" "F"
         (Sample.world [Response (Sample.ok RevaRenameVariableResponse)]))
  = fst (rename_variable_in_function
           "b" "a" "F"
           (Sample.world
              [Response (Sample.ok (RevaGetReferencesResponse ["x"] []));
               NotAResponse])).
Proof.
  apply (rename_reads_only_the_error
           "b" "a" "F" _ _
           (Sample.ok RevaRenameVariableResponse)
           (Sample.ok (RevaGetReferencesResponse ["x"] []))
           [] [NotAResponse]);
    reflexivity.
Defined.

(* ================================================================= *)
(** ** The batch as a sequence of renames *)

Lemma submitted_nothing (w : World) : submitted w [] (responses w) = w.
Proof. destruct w. unfold submitted. cbn. now rewrite app_nil_r. Qed.

Lemma skipn_tl {A : Type} (k : nat) (l : list A) :
  skipn k (tl l) = skipn (S k) l.
Proof. destruct l; [now rewrite skipn_nil | reflexivity]. Qed.

Lemma rename_returns_inv (new_name old_name containing_function : string)
      (w w' : World) (s : string) :
  rename_variable_in_function new_name old_name containing_function w
  = (Return s, w') ->
  exists r rest,
    responses w = Response r :: rest
    /\ no_error r
    /\ s = confirmation containing_function (old_name, new_name)
    /\ w' = submitted w [rename_request containing_function
                                        (old_name, new_name)] rest.
Proof.
  unfold rename_variable_in_function. intros H. returned_run H.
  unfold ret in H. injection H as <- <-.
  exists r, rest. now repeat split.
Qed.

(** The worlds the loop can leave behind. *)
Lemma rename_loop_prefix (containing_function : string)
      (items : list (string * string)) :
  forall (outputs : list string) (w : World),
  exists k,
    (k <= List.length items)%nat
    /\ snd (rename_loop items containing_function outputs w)
       = submitted w (map (rename_request containing_function)
                          (firstn k items))
                   (skipn k (responses w)).
Proof.
  induction items as [| [old_name new_name] items IH]; intros outputs w.
  - exists 0%nat. split; [reflexivity |]. cbn. now rewrite submitted_nothing.
  - cbn [rename_loop]. unfold bind.
    pose proof (rename_world new_name old_name containing_function w) as Hw.
    destruct (rename_variable_in_function new_name old_name
                                          containing_function w)
      as [[s | e |] w1]; cbn [snd] in Hw; subst w1.
    + destruct (IH (outputs ++ [s])%list
                   (submitted w [rename_request containing_function
                                                (old_name, new_name)]
                              (tl (responses w)))) as (k & Hk & ->).
      exists (S k). split; [cbn; lia |].
      rewrite submitted_twice. cbn [responses submitted firstn map].
      now rewrite skipn_tl.
    + exists 1%nat. split; [cbn; lia |].
      cbn [snd firstn map]. now rewrite <- skipn_tl.
    + exists 1%nat. split; [cbn; lia |].
      cbn [snd firstn map]. now rewrite <- skipn_tl.
Qed.

(** X12.  Whatever the answers, [rename_multiple_variables_in_function]
    puts on the queue the requests of the first [k] items of the mapping,
    in the order of the mapping, for some [k], and has taken as many
    answers; nothing is submitted out of order and no item is skipped. *)
Theorem batch_rename_submits_a_prefix
        (new_names : list (string * string)) (containing_function : string)
        (w : World) :
  exists k,
    (k <= List.length new_names)%nat
    /\ snd (rename_multiple_variables_in_function
              new_names containing_function w)
       = submitted w (map (rename_request containing_function)
                          (firstn k new_names))
                   (skipn k (responses w)).
Proof. apply rename_loop_prefix. Qed.

Lemma rename_loop_returns_inv (containing_function : string)
      (items : list (string * string)) :
  forall (outputs l : list string) (w w' : World),
    rename_loop items containing_function outputs w = (Return l, w') ->
    exists rs rest,
      responses w = (map Response rs ++ rest)%list
      /\ List.length rs = List.length items
      /\ Forall no_error rs
      /\ l = (outputs ++ map (confirmation containing_function) items)%list
      /\ w' = submitted w (map (rename_request containing_function) items)
                        rest.
Proof.
  induction items as [| [old_name new_name] items IH];
    intros outputs l w w' H.
  - cbn in H. unfold ret in H. injection H as <- <-.
    exists [], (responses w). cbn.
    rewrite app_nil_r, submitted_nothing. now repeat split.
  - cbn [rename_loop] in H. unfold bind in H.
    destruct (rename_variable_in_function new_name old_name
                                          containing_function w)
      as [[s | e |] w1] eqn:Hr; try discriminate H.
    apply rename_returns_inv in Hr.
    destruct Hr as (r & rest1 & Hw & He & -> & ->).
    apply IH in H. destruct H as (rs & rest & Hw1 & Hlen & Hok & -> & ->).
    cbn [responses submitted] in Hw1.
    exists (r :: rs), rest. cbn [map List.length app].
    rewrite Hw, Hw1, Hlen, submitted_twice, <- app_assoc.
    repeat split. now constructor.
Qed.

(** X13.  [rename_multiple_variables_in_function] returns a list exactly
    when the answer to every item of the mapping is a response that
    reports no error; the list then holds the confirmation of every item,
    in the order of the mapping. *)
Theorem batch_rename_returns_iff
        (new_names : list (string * string)) (containing_function : string)
        (w w' : World) (l : list string) :
  rename_multiple_variables_in_function new_names containing_function w
  = (Return l, w')
  <-> exists rs rest,
      responses w = (map Response rs ++ rest)%list
      /\ List.length rs = List.length new_names
      /\ Forall no_error rs
      /\ l = map (confirmation containing_function) new_names
      /\ w' = submitted w (map (rename_request containing_function)
                               new_names) rest.
Proof.
  unfold rename_multiple_variables_in_function. split.
  - intros H. apply rename_loop_returns_inv in H.
    destruct H as (rs & rest & H). exists rs, rest. exact H.
  - intros (rs & rest & Hw & Hlen & Hok & -> & ->).
    now rewrite (rename_loop_acknowledged _ _ [] w rs rest Hw Hlen Hok).
Qed.

Lemma with_outputs_twice (o1 o2 : list string)
      (res : Outcome (list string) * World) :
  with_outputs o1 (with_outputs o2 res) = with_outputs (o1 ++ o2)%list res.
Proof.
  destruct res as [[l | e |] w]; cbn; [| reflexivity..].
  now rewrite app_assoc.
Qed.

(** The list built so far only goes in front of what the loop returns. *)
Lemma rename_loop_outputs (containing_function : string)
      (items : list (string * string)) :
  forall (outputs : list string) (w : World),
    rename_loop items containing_function outputs w
    = with_outputs outputs (rename_loop items containing_function [] w).
Proof.
  induction items as [| [old_name new_name] items IH]; intros outputs w.
  - cbn. unfold ret. now rewrite app_nil_r.
  - cbn [rename_loop]. unfold bind.
    destruct (rename_variable_in_function new_name old_name
                                          containing_function w)
      as [[s | e |] w1]; [| reflexivity..].
    rewrite (IH (outputs ++ [s])%list), (IH ([] ++ [s])%list).
    now rewrite with_outputs_twice.
Qed.

Lemma rename_loop_app (containing_function : string)
      (xs ys : list (string * string)) :
  forall (outputs : list string) (w : World),
    rename_loop (xs ++ ys) containing_function outputs w
    = match rename_loop xs containing_function outputs w with
      | (Return o1, w1) => rename_loop ys containing_function o1 w1
      | other => other
      end.
Proof.
  induction xs as [| [old_name new_name] xs IH]; intros outputs w.
  - reflexivity.
  - cbn [app rename_loop]. unfold bind.
    destruct (rename_variable_in_function new_name old_name
                                          containing_function w)
      as [[s | e |] w1]; [apply IH | reflexivity..].
Qed.

(** X14.  A batch over a mapping cut in two is the batch over the first
    part followed, if that one returns, by the batch over the second part
    in the world the first one left; the confirmations of the two are
    joined, and an error or a block of the first part ends the whole. *)
Theorem batch_rename_splits
        (xs ys : list (string * string)) (containing_function : string)
        (w : World) :
  rename_multiple_variables_in_function (xs ++ ys) containing_function w
  = match rename_multiple_variables_in_function xs containing_function w
    with
    | (Return o1, w1) =>
        with_outputs o1 (rename_multiple_variables_in_function
                           ys containing_function w1)
    | other => other
    end.
Proof.
  unfold rename_multiple_variables_in_function. rewrite rename_loop_app.
  destruct (rename_loop xs containing_function [] w) as [[o1 | e |] w1];
    [apply rename_loop_outputs | reflexivity..].
Qed.

(* ================================================================= *)
(** ** When a decompilation is returned *)

(** X15.  [get_decompilation_for_function] returns a mapping exactly when
    its argument is a string, whatever [int(_, 16)] makes of it, and the
    answer is a decompilation response that reports no error; the mapping
    then binds the five keys "function", "function_signature", "address",
    "decompilation" and "variables", in that order, to the fields of the
    response, the address written by [hex]. *)
Theorem decompilation_returns_iff
        (str_of_response : RevaMessageResponse -> string)
        (x : Py.value) (w : World) (d : list (string * DictValue)) :
  fst (get_decompilation_for_function str_of_response x w) = Return d
  <-> exists s r rest f sig a dec vars,
      x = Py.Str s
      /\ responses w = Response r :: rest
      /\ no_error r
      /\ body r = RevaGetDecompilationResponse f sig a dec vars
      /\ d = [ ("function", VStr f);
               ("function_signature", VStr sig);
               ("address", VStr (Py.hex a));
               ("decompilation", VStr dec);
               ("variables", VVariables vars) ].
Proof.
  split.
  - destruct x as [z | s]; [discriminate |].
    unfold get_decompilation_for_function.
    rewrite (normalise_string s),
      (normalised_is_identified (Py.Str s) _ (normalise_string s)).
    unfold raise_if. unfold bind at 1 2. unfold ret at 1 2.
    cbv beta iota zeta.
    intros H. returned_run H.
    destruct (body r) as [f sig a dec vars | | | | |] eqn:Hb;
      try discriminate H.
    injection H as <-. exists s, r, rest, f, sig, a, dec, vars.
    now repeat split.
  - intros (s & r & rest & f & sig & a & dec & vars
            & -> & Hw & He & Hb & ->).
    now rewrite (decompilation_returned
                   str_of_response (Py.Str s) _ w r rest
                   f sig a dec vars (normalise_string s) Hw He Hb).
Qed.
